(** * bsky_bridge.bsky_session: the BlueSky session manager

    A shallow embedding of [src/bsky_bridge/bsky_session.py] (class
    [BskySession]) and the properties of its session life cycle:
    bootstrap, create / refresh, the guarded [api_call] with its bounded
    retry, and [logout].

    The Python methods mutate [self], read and write the session file, talk
    to the network through [requests] and write to [logging].  They are
    embedded as computations in a state-and-exception monad over a [world]
    that holds exactly those four things, plus the heap of dictionary
    objects that callers share with [api_call]. *)

From Stdlib Require Import ZArith Ascii String DecimalString.
From stdpp Require Import base gmap sets list strings.

Open Scope Z_scope.

(** ** Python values *)

(** The values the session stores in its three token fields: whatever
    scalar the JSON document held.  ([None] is JSON [null].) *)
Inductive pyval :=
  | PNone
  | PBool (b : bool)
  | PInt (z : Z)
  | PStr (s : string).

#[global] Instance pyval_eq_dec : EqDecision pyval.
Proof. solve_decision. Defined.

(** Python truth value, as tested by [if not self.refresh_token]. *)
Definition truthy (v : pyval) : bool :=
  match v with
  | PNone => false
  | PBool b => b
  | PInt z => negb (z =? 0)
  | PStr s => negb (String.eqb s "")
  end.

(** [str(v)], as interpolated by an f-string without format spec. *)
Definition py_str (v : pyval) : string :=
  match v with
  | PNone => "None"
  | PBool true => "True"
  | PBool false => "False"
  | PInt z => NilZero.string_of_int (Z.to_int z)
  | PStr s => s
  end.

(** A decoded JSON document.  An object is a dictionary; its values are
    kept when they are scalars, which is what the server and the session
    file store under the keys the session reads (nested arrays and
    objects are not modelled).  Any other top-level value is an array or a
    scalar, on which [.get] and subscripting by a string fail. *)
Inductive json_value :=
  | JObject (o : gmap string pyval)
  | JArray (l : list pyval)
  | JScalar (v : pyval).

(** A dictionary of request headers, and a reference to such an object. *)
Abbreviation headers_dict := (gmap string string).
Abbreviation loc := positive.

(** ** The network, as [requests] shows it *)

Record request := {
  req_method : string;
  req_url : string;
  req_headers : option headers_dict;
  req_json : option json_value;
  req_data : option string;
  req_timeout : Z
}.

(** [resp.status_code], [resp.text] and the result of [resp.json()]
    ([None] when the body does not decode). *)
Record response := {
  status_code : Z;
  text : string;
  body : option json_value
}.

(** What one call into [requests] produces: a response, or no response at
    all (connection refused, timeout, ...), in which case [requests] raises. *)
Inductive net_result :=
  | Responds (r : response)
  | Fails (msg : string).

(** [requests.post] is used by create and refresh, [requests.request] by
    [api_call]. *)
Inductive net_api := Post | Request.

Inductive net_event := NetCall (api : net_api) (q : request) (r : net_result).

(** ** Exceptions *)

(** The members of [requests.exceptions.RequestException] that occur. *)
Inductive requests_exn :=
  | TransportError (msg : string)       (* ConnectionError, Timeout, ... of requests *)
  | HTTPError (status : Z)              (* raised by raise_for_status *)
  | ResponseJSONDecodeError.            (* raised by resp.json() *)

Inductive exn :=
  | RequestException (e : requests_exn)
  | ConnectionError (msg : string) (cause : requests_exn)   (* the builtin one *)
  | ValueError (msg : string)
  | UnboundLocalError (name : string)
  | KeyError (key : string)
  | TypeError
  | AttributeError
  | OSError (msg : string)              (* IOError is an alias of OSError *)
  | JSONDecodeError
  | UnicodeDecodeError                  (* a ValueError, like JSONDecodeError *)
  | RecursionError.

(** [except requests.RequestException] *)
Definition is_RequestException (e : exn) : bool :=
  match e with RequestException _ => true | _ => false end.

(** [except ConnectionError]: the builtin class, which [requests]'
    exceptions do not derive from. *)
Definition is_ConnectionError (e : exn) : bool :=
  match e with ConnectionError _ _ => true | _ => false end.

(** [except IOError]: [OSError] and its subclasses, among them the builtin
    [ConnectionError] and (through [IOError]) [RequestException]. *)
Definition is_IOError (e : exn) : bool :=
  match e with
  | OSError _ | ConnectionError _ _ | RequestException _ => true
  | _ => false
  end.

(** [except (IOError, json.JSONDecodeError)] *)
Definition is_IOError_or_JSONDecodeError (e : exn) : bool :=
  match e with
  | JSONDecodeError => true
  | _ => is_IOError e
  end.

(** ** Logging *)

Inductive level := INFO | WARNING | ERROR.

Inductive log_arg :=
  | LInt (z : Z)
  | LStr (s : string)
  | LExn (e : exn).

Record log_record := LogRecord {
  log_level : level;
  log_fmt : string;
  log_args : list log_arg
}.

(** ** The file system *)

(** A file holds text that [json.load] decodes, text that it rejects
    with [JSONDecodeError], or bytes that are not text in the encoding
    [open] reads with, on which reading raises [UnicodeDecodeError]. *)
Inductive file_data :=
  | JsonDoc (j : json_value)
  | Malformed (raw : string)
  | NotText (bytes : string).

(** The files that exist; the paths on which [open(_, 'r')] fails; the
    paths on which writing fails; the paths on which [os.remove] fails.
    A write fails either in [open(_, 'w')], which leaves the file as it
    was, or after it, in [json.dump] or when the file is closed, which
    leaves the file truncated: [torn_write] tells, for a path of the
    second kind, the text that the failed write leaves behind. *)
Record fsys := {
  files : gmap string file_data;
  deny_read : gset string;
  deny_write : gset string;
  deny_remove : gset string;
  torn_write : gmap string string
}.

(** ** The session object and the world around it *)

Record session := {
  handle : string;
  app_password : string;
  session_file : string;
  access_token : pyval;
  refresh_token : pyval;
  did : pyval
}.

Record world := {
  self : session;
  fs : fsys;
  heap : gmap loc headers_dict;
  net : list net_event;       (* calls into requests, oldest first *)
  log : list log_record       (* logging records, oldest first *)
}.

Definition with_self (f : session → session) (w : world) : world :=
  {| self := f (self w); fs := fs w; heap := heap w; net := net w; log := log w |}.

Definition with_files (f : gmap string file_data → gmap string file_data) (w : world) : world :=
  {| self := self w;
     fs := {| files := f (files (fs w)); deny_read := deny_read (fs w);
              deny_write := deny_write (fs w); deny_remove := deny_remove (fs w);
              torn_write := torn_write (fs w) |};
     heap := heap w; net := net w; log := log w |}.

Definition with_heap (f : gmap loc headers_dict → gmap loc headers_dict) (w : world) : world :=
  {| self := self w; fs := fs w; heap := f (heap w); net := net w; log := log w |}.

Definition with_net (e : net_event) (w : world) : world :=
  {| self := self w; fs := fs w; heap := heap w; net := net w ++ [e]; log := log w |}.

Definition with_log (r : log_record) (w : world) : world :=
  {| self := self w; fs := fs w; heap := heap w; net := net w; log := log w ++ [r] |}.

Definition put_access_token (v : pyval) (s : session) : session :=
  {| handle := handle s; app_password := app_password s; session_file := session_file s;
     access_token := v; refresh_token := refresh_token s; did := did s |}.

Definition put_refresh_token (v : pyval) (s : session) : session :=
  {| handle := handle s; app_password := app_password s; session_file := session_file s;
     access_token := access_token s; refresh_token := v; did := did s |}.

Definition put_did (v : pyval) (s : session) : session :=
  {| handle := handle s; app_password := app_password s; session_file := session_file s;
     access_token := access_token s; refresh_token := refresh_token s; did := v |}.

(** ** The monad: state that survives a raised exception *)

Inductive outcome (A : Type) :=
  | Return (a : A)
  | Raise (e : exn).
Arguments Return {A} a.
Arguments Raise {A} e.

Definition M (A : Type) : Type := world → outcome A * world.

Definition run {A} (m : M A) (w : world) : outcome A * world := m w.

#[global] Instance M_ret : MRet M := λ A a w, (Return a, w).

#[global] Instance M_bind : MBind M := λ A B k m w,
  match m w with
  | (Return a, w1) => k a w1
  | (Raise e, w1) => (Raise e, w1)
  end.

Definition raise {A} (e : exn) : M A := λ w, (Raise e, w).

(** [try: body  except <catches> as e: handler e] *)
Definition try_except {A} (body : M A) (catches : exn → bool) (handler : exn → M A) : M A :=
  λ w,
    match body w with
    | (Return a, w1) => (Return a, w1)
    | (Raise e, w1) => if catches e then handler e w1 else (Raise e, w1)
    end.

(** Runs a statement and hands back how it ended, for a [try] whose
    handler depends on how far the body got. *)
Definition attempt {A} (m : M A) : M (outcome A) :=
  λ w, let '(r, w1) := m w in (Return r, w1).

Definition get_self : M session := λ w, (Return (self w), w).

Definition modify (f : world → world) : M unit := λ w, (Return tt, f w).

Definition logging (lvl : level) (fmt : string) (args : list log_arg) : M unit :=
  modify (with_log (LogRecord lvl fmt args)).

(** ** Capabilities the class consumes *)

Section BskySession.

(** [urllib.parse.urlencode], and the server behind [requests]: what it
    answers to a request, given the calls made so far. *)
Variable urlencode : list (string * string) → string.
Variable transport : list net_event → request → net_result.

(** One call into [requests]: recorded, then a response or a raised
    [RequestException]. *)
Definition requests_send (api : net_api) (q : request) : M response := λ w,
  let r := transport (net w) q in
  let w1 := with_net (NetCall api q r) w in
  match r with
  | Responds resp => (Return resp, w1)
  | Fails msg => (Raise (RequestException (TransportError msg)), w1)
  end.

(** [requests.post(url, json_value=payload, timeout=t)] *)
Definition requests_post (url : string) (payload : json_value) (timeout : Z) : M response :=
  requests_send Post
    {| req_method := "POST"; req_url := url; req_headers := None;
       req_json := Some payload; req_data := None; req_timeout := timeout |}.

(** [requests.request(method, url, headers=h, json_value=j, data=d, timeout=t)] *)
Definition requests_request (method url : string) (h : headers_dict)
    (j : option json_value) (d : option string) (timeout : Z) : M response :=
  requests_send Request
    {| req_method := method; req_url := url; req_headers := Some h;
       req_json := j; req_data := d; req_timeout := timeout |}.

(** [resp.raise_for_status()]: [HTTPError] for a 4xx or 5xx status. *)
Definition raise_for_status (resp : response) : M unit :=
  if (400 <=? status_code resp) && (status_code resp <? 600)
  then raise (RequestException (HTTPError (status_code resp)))
  else mret tt.

(** [resp.json()]; the error for a body that does not decode is the
    [requests.exceptions.JSONDecodeError] of requests 2.27 and later, a
    [RequestException]. *)
Definition resp_json (resp : response) : M json_value :=
  match body resp with
  | Some j => mret j
  | None => raise (RequestException ResponseJSONDecodeError)
  end.

(** [session[key]] *)
Definition subscript (j : json_value) (key : string) : M pyval :=
  match j with
  | JObject o =>
      match o !! key with
      | Some v => mret v
      | None => raise (KeyError key)
      end
  | _ => raise TypeError
  end.

(** [session.get(key)] *)
Definition json_get (j : json_value) (key : string) : M pyval :=
  match j with
  | JObject o => mret (default PNone (o !! key))
  | _ => raise AttributeError
  end.

(** [os.path.exists(path)] *)
Definition os_path_exists (path : string) : M bool := λ w,
  (Return (bool_decide (is_Some (files (fs w) !! path))), w).

(** [with open(path, 'r') as f: json.load(f)] *)
Definition open_r_json_load (path : string) : M json_value := λ w,
  if decide (path ∈ deny_read (fs w)) then (Raise (OSError "Permission denied"), w)
  else match files (fs w) !! path with
       | Some (JsonDoc j) => (Return j, w)
       | Some (Malformed _) => (Raise JSONDecodeError, w)
       | Some (NotText _) => (Raise UnicodeDecodeError, w)
       | None => (Raise (OSError "No such file or directory"), w)
       end.

(** How a write to [path] fails: in [open], with the file untouched, or
    after [open] has truncated the file, with a proper prefix of the
    text left in it (which [json.load] rejects). *)
Definition failed_write (path : string) (w : world) : exn * world :=
  match torn_write (fs w) !! path with
  | None => (OSError "Permission denied", w)
  | Some partial =>
      (OSError "No space left on device", with_files (<[path := Malformed partial]>) w)
  end.

(** [with open(path, 'w') as f: json.dump(j, f)] *)
Definition open_w_json_dump (path : string) (j : json_value) : M unit := λ w,
  if decide (path ∈ deny_write (fs w))
  then (Raise (failed_write path w).1, (failed_write path w).2)
  else (Return tt, with_files (<[path := JsonDoc j]>) w).

(** [os.remove(path)] *)
Definition os_remove (path : string) : M unit := λ w,
  if decide (path ∈ deny_remove (fs w)) then (Raise (OSError "Permission denied"), w)
  else match files (fs w) !! path with
       | Some _ => (Return tt, with_files (delete path) w)
       | None => (Raise (OSError "No such file or directory"), w)
       end.

(** A dictionary object: its contents now, a fresh empty one, and
    [d.update(other)]. *)
Definition deref (l : loc) : M headers_dict := λ w,
  (Return (default ∅ (heap w !! l)), w).

Definition new_dict : M loc := λ w,
  let l := fresh (dom (heap w)) in
  (Return l, with_heap (<[l := ∅]>) w).

Definition dict_update (l : loc) (other : headers_dict) : M unit :=
  modify (with_heap (λ h, <[l := other ∪ default ∅ (h !! l)]> h)).

(** [headers or {}]: the caller's object when it is a non-empty
    dictionary, a new dictionary for [None] and for an empty one. *)
Definition headers_or_new (headers : option loc) : M loc :=
  match headers with
  | None => new_dict
  | Some l =>
      d ← deref l;
      if bool_decide (d = ∅) then new_dict else mret l
  end.

(** [params] is truthy: a dictionary with at least one entry. *)
Definition params_truthy (params : option (list (string * string))) : bool :=
  match params with
  | Some (_ :: _) => true
  | _ => false
  end.

(** ** The class *)

Definition BASE_URL : string := "https://bsky.social/xrpc".
Definition SESSION_FILE : string := "session.json".

(** Lines 114-132. *)
Definition _save_session : M unit :=
  s ← get_self;
  let session : gmap string pyval :=
    {[ "accessJwt" := access_token s;
       "refreshJwt" := refresh_token s;
       "did" := did s ]} in
  try_except
    (open_w_json_dump (session_file s) (JObject session);;
     logging INFO "Session saved to file." [])
    is_IOError
    (λ e, logging ERROR "Failed to save session file: %s" [LExn e];;
          raise e).

(** The handler of lines 53-55 and 80-82.  [resp] is the local variable
    of the enclosing method: unbound ([None] here) when [requests.post]
    itself raised, so that reading it raises [UnboundLocalError] before
    anything is logged. *)
Definition on_post_error (what : string) (resp : option response) (e : exn) : M response :=
  match e with
  | RequestException cause =>
      match resp with
      | None => raise (UnboundLocalError "resp")
      | Some r =>
          logging ERROR "Error %s: %s" [LInt (status_code r); LStr (text r)];;
          raise (ConnectionError what cause)
      end
  | _ => raise e
  end.

(** The [try] blocks of lines 50-55 and 77-82. *)
Definition post_and_check (url : string) (payload : json_value) (what : string) : M response :=
  posted ← attempt (requests_post url payload 10);
  match posted with
  | Raise e =>
      if is_RequestException e then on_post_error what None e else raise e
  | Return resp =>
      try_except (raise_for_status resp;; mret resp)
        is_RequestException (on_post_error what (Some resp))
  end.

(** Lines 57-60 and 84-87: the three assignments, in order. *)
Definition store_tokens (session : json_value) : M unit :=
  v ← subscript session "accessJwt"; modify (with_self (put_access_token v));;
  v ← json_get session "refreshJwt"; modify (with_self (put_refresh_token v));;
  v ← subscript session "did"; modify (with_self (put_did v)).

(** Lines 41-62. *)
Definition _create_session : M unit :=
  s ← get_self;
  let url := BASE_URL +:+ "/com.atproto.server.createSession" in
  let payload := JObject {[ "identifier" := PStr (handle s);
                            "password" := PStr (app_password s) ]} in
  resp ← post_and_check url payload "Error creating session: ";
  session ← resp_json resp;
  store_tokens session;;
  _save_session;;
  logging INFO "New session created." [].

(** Lines 64-89. *)
Definition _refresh_access_token : M unit :=
  s ← get_self;
  if negb (truthy (refresh_token s)) then
    logging ERROR "No refresh token available." [];;
    raise (ValueError "Refresh token is missing.")
  else
    let url := BASE_URL +:+ "/com.atproto.server.refreshSession" in
    let payload := JObject {[ "refreshToken" := refresh_token s ]} in
    resp ← post_and_check url payload "Error refreshing session: ";
    session ← resp_json resp;
    store_tokens session;;
    _save_session;;
    logging INFO "Access token refreshed successfully." [].

(** Lines 91-112. *)
Definition _load_session : M unit :=
  s ← get_self;
  found ← os_path_exists (session_file s);
  if found : bool then
    try_except
      (session ← open_r_json_load (session_file s);
       v ← json_get session "accessJwt"; modify (with_self (put_access_token v));;
       v ← json_get session "refreshJwt"; modify (with_self (put_refresh_token v));;
       v ← json_get session "did"; modify (with_self (put_did v));;
       logging INFO "Session loaded from file." [])
      is_IOError_or_JSONDecodeError
      (λ e, logging WARNING "Failed to load session file: %s" [LExn e];;
            logging INFO "Creating a new session." [];;
            _create_session)
  else
    logging INFO "No existing session file found. Creating a new session." [];;
    _create_session.

(** [session_file or self.SESSION_FILE] (line 35): the default for [None]
    and for the empty string. *)
Definition session_file_or_default (session_file : option string) : string :=
  match session_file with
  | Some f => if String.eqb f "" then SESSION_FILE else f
  | None => SESSION_FILE
  end.

(** Lines 24-39. *)
Definition __init__ (handle app_password : string) (session_file : option string) : M unit :=
  modify (with_self (λ _,
    {| handle := handle; app_password := app_password;
       session_file := session_file_or_default session_file;
       access_token := PNone; refresh_token := PNone; did := PNone |}));;
  _load_session.

(** Lines 134-141. *)
Definition get_auth_header : M headers_dict :=
  s ← get_self;
  mret {[ "Authorization" := "Bearer " +:+ py_str (access_token s) ]}.

(** [resp.status_code in [401, 400]] *)
Definition auth_failure (status : Z) : bool :=
  bool_decide (status ∈ [401; 400]).

(** Lines 171-176: refresh, and create when refresh raised the builtin
    [ConnectionError]. *)
Definition refresh_or_create : M unit :=
  try_except _refresh_access_token is_ConnectionError
    (λ e, logging ERROR "Failed to refresh token: %s" [LExn e];;
          logging INFO "Creating a new session." [];;
          _create_session).

(** Lines 159-183, with the call of the method to itself (line 178) as
    [self_api_call]. *)
Definition api_call_body
    (self_api_call : string → string → option json_value → option string →
                     option loc → option (list (string * string)) → Z → M json_value)
    (endpoint method : string) (json : option json_value)
    (data : option string) (headers : option loc)
    (params : option (list (string * string))) (retry : Z) : M json_value :=
  let url := BASE_URL +:+ "/" +:+ endpoint in
  let url := if params_truthy params
             then url +:+ "?" +:+ urlencode (default [] params)
             else url in
  headers ← headers_or_new headers;
  auth ← get_auth_header; dict_update headers auth;;
  try_except
    (h ← deref headers;
     resp ← requests_request method url h json data 10;
     if auth_failure (status_code resp) && (0 <? retry) then
       logging INFO "Token potentially expired or invalid. Attempting to refresh." [];;
       refresh_or_create;;
       auth ← get_auth_header; dict_update headers auth;;
       self_api_call endpoint method json data (Some headers) params (retry - 1)
     else
       raise_for_status resp;;
       resp_json resp)
    is_RequestException
    (λ e, logging ERROR "Error during API call: %s" [LExn e];;
          raise e).

(** Lines 143-183.  The method calls itself only when [retry > 0], with
    [retry - 1]: [fuel] bounds that recursion, and [api_call] supplies
    [retry] units of it, so that the [RecursionError] branch is dead. *)
Fixpoint api_call_loop (fuel : nat) (endpoint method : string) (json : option json_value)
    (data : option string) (headers : option loc)
    (params : option (list (string * string))) (retry : Z) : M json_value :=
  api_call_body
    (match fuel with
     | S fuel' => api_call_loop fuel'
     | O => λ _ _ _ _ _ _ _, raise RecursionError
     end)
    endpoint method json data headers params retry.

Definition api_call (endpoint method : string) (json : option json_value)
    (data : option string) (headers : option loc)
    (params : option (list (string * string))) (retry : Z) : M json_value :=
  api_call_loop (Z.to_nat retry) endpoint method json data headers params retry.

(** Lines 185-200. *)
Definition logout : M unit :=
  modify (with_self (put_access_token PNone));;
  modify (with_self (put_refresh_token PNone));;
  modify (with_self (put_did PNone));;
  s ← get_self;
  found ← os_path_exists (session_file s);
  if found : bool then
    try_except
      (os_remove (session_file s);;
       logging INFO "Session file deleted." [])
      is_IOError
      (λ e, logging ERROR "Error deleting session file: %s" [LExn e])
  else mret tt.

End BskySession.

(** ** Observations on a run *)

(** The calls made, and the records logged, between two worlds. *)
Definition new_net (w w' : world) : list net_event :=
  drop (length (net w)) (net w').

Definition new_log (w w' : world) : list log_record :=
  drop (length (log w)) (log w').

Definition is_post (e : net_event) : bool :=
  match e with NetCall Post _ _ => true | _ => false end.

(** The attempts of a guarded call: its calls of [requests.request]. *)
Definition attempts (evs : list net_event) : list (request * net_result) :=
  omap (λ e, match e with
             | NetCall Request q r => Some (q, r)
             | _ => None
             end) evs.

(** A recovery starts with this record (line 170) and nothing else logs it. *)
Definition is_recovery_start (r : log_record) : bool :=
  String.eqb (log_fmt r) "Token potentially expired or invalid. Attempting to refresh.".

Definition recovery_attempts (rs : list log_record) : nat :=
  length (filter (λ r, is_recovery_start r = true) rs).

(** [4xx] and [5xx]: the statuses on which [raise_for_status] raises. *)
Definition http_error (status : Z) : bool :=
  (400 <=? status) && (status <? 600).

(** The class of exception that [raise_for_status] raises for any such
    status, whatever led to it. *)
Definition is_HTTPError (e : exn) : bool :=
  match e with RequestException (HTTPError _) => true | _ => false end.

Definition raises_HTTPError {A} (r : outcome A) : bool :=
  match r with
  | Raise e => is_HTTPError e
  | Return _ => false
  end.

(** The requests that create and refresh post. *)
Definition create_request (s : session) : request :=
  {| req_method := "POST";
     req_url := BASE_URL +:+ "/com.atproto.server.createSession";
     req_headers := None;
     req_json := Some (JObject {[ "identifier" := PStr (handle s);
                                  "password" := PStr (app_password s) ]});
     req_data := None; req_timeout := 10 |}.

Definition refresh_request (s : session) : request :=
  {| req_method := "POST";
     req_url := BASE_URL +:+ "/com.atproto.server.refreshSession";
     req_headers := None;
     req_json := Some (JObject {[ "refreshToken" := refresh_token s ]});
     req_data := None; req_timeout := 10 |}.

(** The two token life-cycle operations. *)
Inductive lifecycle_op := Create | Refresh.

Definition lifecycle_request (op : lifecycle_op) (s : session) : request :=
  match op with
  | Create => create_request s
  | Refresh => refresh_request s
  end.

Definition lifecycle_run (transport : list net_event → request → net_result)
    (op : lifecycle_op) : M unit :=
  match op with
  | Create => _create_session transport
  | Refresh => _refresh_access_token transport
  end.

(** Refresh needs a refresh token (line 71); create needs nothing. *)
Definition lifecycle_ready (op : lifecycle_op) (s : session) : bool :=
  match op with
  | Create => true
  | Refresh => truthy (refresh_token s)
  end.

Definition lifecycle_payload (op : lifecycle_op) (s : session) : json_value :=
  match op with
  | Create => JObject {[ "identifier" := PStr (handle s);
                         "password" := PStr (app_password s) ]}
  | Refresh => JObject {[ "refreshToken" := refresh_token s ]}
  end.

(** The messages of lines 55 and 82, and of lines 62 and 89. *)
Definition lifecycle_error (op : lifecycle_op) : string :=
  match op with
  | Create => "Error creating session: "
  | Refresh => "Error refreshing session: "
  end.

Definition lifecycle_done (op : lifecycle_op) : string :=
  match op with
  | Create => "New session created."
  | Refresh => "Access token refreshed successfully."
  end.

(** The session with its three token fields cleared. *)
Definition cleared (s : session) : session :=
  {| handle := handle s; app_password := app_password s; session_file := session_file s;
     access_token := PNone; refresh_token := PNone; did := PNone |}.

(** What [_save_session] writes. *)
Definition session_record (s : session) : gmap string pyval :=
  {[ "accessJwt" := access_token s; "refreshJwt" := refresh_token s; "did" := did s ]}.

(** ** The methods, step by step

    The pieces of the methods as functions on worlds; the run equations
    below show that the methods are made of them. *)

(** What [requests.post(url, json=payload, timeout=10)] sends. *)
Definition post_request (url : string) (payload : json_value) : request :=
  {| req_method := "POST"; req_url := url; req_headers := None;
     req_json := Some payload; req_data := None; req_timeout := 10 |}.

(** Lines 57-62 and 84-89: decode the response, store the tokens, save. *)
Definition adopt (resp : response) (done : string) : M unit :=
  session ← resp_json resp;
  store_tokens session;;
  _save_session;;
  logging INFO done [].

(** [headers or {}] (line 164): the object used, and the world with it. *)
Definition chosen_headers (headers : option loc) (w : world) : loc * world :=
  let fresh_one :=
    (fresh (dom (heap w)), with_heap (<[fresh (dom (heap w)) := ∅]>) w) in
  match headers with
  | Some l => if bool_decide (default ∅ (heap w !! l) = ∅) then fresh_one else (l, w)
  | None => fresh_one
  end.

(** [headers.update(self.get_auth_header())] (lines 165 and 177) on the
    object at [l]. *)
Definition authorize (l : loc) (w : world) : world :=
  with_heap
    (λ h, <[l := {[ "Authorization" := "Bearer " +:+ py_str (access_token (self w)) ]}
                 ∪ default ∅ (h !! l)]> h) w.

(** Lines 159-162. *)
Definition endpoint_url (urlencode : list (string * string) → string)
    (endpoint : string) (params : option (list (string * string))) : string :=
  let url := BASE_URL +:+ "/" +:+ endpoint in
  if params_truthy params then url +:+ "?" +:+ urlencode (default [] params) else url.

(** What line 168 sends, with the headers object at [l]. *)
Definition attempt_request (urlencode : list (string * string) → string)
    (endpoint method : string) (json : option json_value)
    (data : option string) (params : option (list (string * string)))
    (l : loc) (w : world) : request :=
  {| req_method := method; req_url := endpoint_url urlencode endpoint params;
     req_headers := Some (default ∅ (heap w !! l));
     req_json := json; req_data := data; req_timeout := 10 |}.

(** The handler of lines 181-183, applied to how the body ended. *)
Definition logged (x : outcome json_value * world) : outcome json_value * world :=
  match x with
  | (Raise e, w) =>
      if is_RequestException e
      then (Raise e, with_log (LogRecord ERROR "Error during API call: %s" [LExn e]) w)
      else (Raise e, w)
  | (Return a, w) => (Return a, w)
  end.

(** The record of line 170. *)
Definition recovery_started : log_record :=
  LogRecord INFO "Token potentially expired or invalid. Attempting to refresh." [].

(** Lines 179-180: what a response that is not recovered from yields. *)
Definition conclusion (resp : response) : outcome json_value :=
  if http_error (status_code resp)
  then Raise (RequestException (HTTPError (status_code resp)))
  else match body resp with
       | Some j => Return j
       | None => Raise (RequestException ResponseJSONDecodeError)
       end.

(** How an attempt that is the last one ends the call. *)
Definition final_result (o : net_result) : outcome json_value :=
  match o with
  | Responds resp => conclusion resp
  | Fails msg => Raise (RequestException (TransportError msg))
  end.

(** What create and refresh leave alone: the heap and the fixed fields of
    the session; the calls they add are posts, and no record they log
    starts a recovery. *)
Record quiet (w w' : world) : Prop := {
  quiet_heap : heap w' = heap w;
  quiet_handle : handle (self w') = handle (self w);
  quiet_password : app_password (self w') = app_password (self w);
  quiet_file : session_file (self w') = session_file (self w);
  quiet_net : ∃ evs, net w' = net w ++ evs ∧ Forall (λ e, is_post e = true) evs;
  quiet_log : ∃ rs, log w' = log w ++ rs ∧ Forall (λ r, is_recovery_start r = false) rs
}.

(** Every attempt of a guarded call sends the same method, URL and payload. *)
Definition same_call (urlencode : list (string * string) → string)
    (endpoint method : string) (json : option json_value) (data : option string)
    (params : option (list (string * string))) (q : request) : Prop :=
  req_method q = method ∧ req_url q = endpoint_url urlencode endpoint params
  ∧ req_json q = json ∧ req_data q = data.

(** The shape of what a guarded call with budget [retry] leaves behind:
    it begins with an attempt; all attempts send the same call; it has
    made at most [retry] recoveries; and either the last attempt decided
    the result, or the recovery after it (or its re-issue) raised. *)
Definition guarded_trace (urlencode : list (string * string) → string)
    (endpoint method : string) (json : option json_value) (data : option string)
    (params : option (list (string * string))) (retry : Z)
    (evs : list net_event) (rs : list log_record) (res : outcome json_value) : Prop :=
  (∃ q o more, evs = NetCall Request q o :: more)
  ∧ Forall (λ a, same_call urlencode endpoint method json data params a.1) (attempts evs)
  ∧ (recovery_attempts rs ≤ Z.to_nat retry)%nat
  ∧ ((length (attempts evs) = S (recovery_attempts rs)
      ∧ ∃ q o, last (attempts evs) = Some (q, o) ∧ res = final_result o)
     ∨ (length (attempts evs) = recovery_attempts rs ∧ ∃ e, res = Raise e)).

(** The first request of a guarded call made in [w]. *)
Definition first_attempt (urlencode : list (string * string) → string)
    (endpoint method : string) (json : option json_value) (data : option string)
    (headers : option loc) (params : option (list (string * string)))
    (w : world) : request :=
  let l := (chosen_headers headers w).1 in
  attempt_request urlencode endpoint method json data params l
    (authorize l (chosen_headers headers w).2).

(** The world in which the recovery of a guarded call made in [w] starts,
    after the first attempt was answered with [r1] (lines 164-170): the
    headers object holds the bearer header, the attempt has been made,
    the recovery is announced in the log. *)
Definition recovery_world (urlencode : list (string * string) → string)
    (endpoint method : string) (json : option json_value) (data : option string)
    (headers : option loc) (params : option (list (string * string)))
    (r1 : response) (w : world) : world :=
  let l := (chosen_headers headers w).1 in
  with_log recovery_started
    (with_net (NetCall Request
                 (first_attempt urlencode endpoint method json data headers params w)
                 (Responds r1))
       (authorize l (chosen_headers headers w).2)).

(** What follows the first attempt [q1], answered with [r1], of a guarded
    call that recovers: [rest] is what the recovery posts, then what the
    re-issued call does.  The recovery is one run of lines 171-176 in the
    world that the first attempt left; it posts nothing (no refresh token:
    the [ValueError] ends the call), or one refresh, or a refresh that the
    server answered with an error status and then one create.  When the
    recovery raises, the call ends there with that exception and nothing
    more is sent.  When the recovery returns, the method runs again, in
    the world that the recovery left and with the bearer header renewed
    (line 177), on the same endpoint, method, payload, headers object and
    parameters and with [retry - 1] (line 178); it begins by sending the
    same method, URL and payload, and what it yields is what the call
    yields. *)
Definition first_recovery_outcome (urlencode : list (string * string) → string)
    (transport : list net_event → request → net_result)
    (endpoint method : string) (json : option json_value) (data : option string)
    (headers : option loc) (params : option (list (string * string))) (retry : Z)
    (w w' : world) (res : outcome json_value)
    (q1 : request) (r1 : response) (rest : list net_event) : Prop :=
  let l := (chosen_headers headers w).1 in
  ∃ rec more rr wd,
    q1 = first_attempt urlencode endpoint method json data headers params w
    ∧ run (refresh_or_create transport)
        (recovery_world urlencode endpoint method json data headers params r1 w) = (rr, wd)
    ∧ net wd = net w ++ NetCall Request q1 (Responds r1) :: rec
    ∧ rest = rec ++ more
    ∧ ((rec = [] ∧ truthy (refresh_token (self w)) = false
        ∧ rr = Raise (ValueError "Refresh token is missing."))
       ∨ (∃ o, rec = [NetCall Post (refresh_request (self w)) o]
            ∧ truthy (refresh_token (self w)) = true
            ∧ ∀ r, o = Responds r → http_error (status_code r) = false)
       ∨ (∃ r o, rec = [NetCall Post (refresh_request (self w)) (Responds r);
                        NetCall Post (create_request (self w)) o]
            ∧ truthy (refresh_token (self w)) = true
            ∧ http_error (status_code r) = true))
    ∧ match rr with
      | Raise e => more = [] ∧ logged (Raise e, wd) = (res, w')
      | Return _ =>
          ∃ w3 q2 o2 more',
            run (api_call urlencode transport
                   endpoint method json data (Some l) params (retry - 1))
              (authorize l wd) = (res, w3)
            ∧ logged (res, w3) = (res, w')
            ∧ more = NetCall Request q2 o2 :: more'
            ∧ req_method q2 = req_method q1 ∧ req_url q2 = req_url q1
            ∧ req_json q2 = req_json q1 ∧ req_data q2 = req_data q1
      end.

(** The session as lines 33-38 of [__init__] set it. *)
Definition fresh_session (handle app_password : string) (session_file : option string)
    : session :=
  {| handle := handle; app_password := app_password;
     session_file := session_file_or_default session_file;
     access_token := PNone; refresh_token := PNone; did := PNone |}.

(** What the caller's [headers] argument holds ([None]: nothing). *)
Definition caller_headers (headers : option loc) (w : world) : headers_dict :=
  match headers with
  | Some l => default ∅ (heap w !! l)
  | None => ∅
  end.

(** The bearer header of a token (line 141). *)
Definition bearer (token : pyval) : string := "Bearer " +:+ py_str token.

(** The access token that a post leaves in a session that held [tok]:
    the [accessJwt] of a response that is accepted and decodes to an
    object with that key (lines 58 and 85); the token it held, in every
    other case. *)
Definition token_after_post (tok : pyval) (o : net_result) : pyval :=
  match o with
  | Responds resp =>
      if http_error (status_code resp) then tok
      else match body resp with
           | Some (JObject ob) => default tok (ob !! "accessJwt")
           | _ => tok
           end
  | Fails _ => tok
  end.

(** The access token that the calls [evs] leave in a session that held
    [tok]: only posts change it. *)
Fixpoint token_after (tok : pyval) (evs : list net_event) : pyval :=
  match evs with
  | [] => tok
  | NetCall Post _ o :: evs => token_after (token_after_post tok o) evs
  | NetCall Request _ _ :: evs => token_after tok evs
  end.

(** The access tokens that the session holds when the attempts among
    [evs] are made, one for each attempt. *)
Fixpoint attempt_tokens (tok : pyval) (evs : list net_event) : list pyval :=
  match evs with
  | [] => []
  | NetCall Post _ o :: evs => attempt_tokens (token_after_post tok o) evs
  | NetCall Request _ _ :: evs => tok :: attempt_tokens tok evs
  end.

(** What the caller's headers object, which held [d], holds when it was
    last given the bearer header for [tok]. *)
Definition authorized (d : headers_dict) (tok : pyval) : headers_dict :=
  <["Authorization" := bearer tok]> d.

(** What a guarded call does to the headers object at [l] of its caller,
    which held [d], in a session that held the access token [tok]; [evs]
    are the calls made.  Every attempt is sent with [d] and the bearer
    header of the access token that the session holds at that time; the
    object is left as it was sent with the last attempt; the session is
    left with the token that the posts gave it; and when the call returns
    a result the object holds the bearer header of that token. *)
Definition headers_outcome (l : loc) (d : headers_dict) (tok : pyval)
    (evs : list net_event) (res : outcome json_value) (w' : world) : Prop :=
  let toks := attempt_tokens tok evs in
  map (λ a, req_headers a.1) (attempts evs) = map (λ t, Some (authorized d t)) toks
  ∧ (∃ t, last toks = Some t ∧ heap w' !! l = Some (authorized d t))
  ∧ access_token (self w') = token_after tok evs
  ∧ ((∃ j, res = Return j) → last toks = Some (access_token (self w'))).



(** There is nothing to load at the session file: it does not exist,
    [open] fails on it, or it holds text that [json.load] rejects with
    [JSONDecodeError].  (A file that is not text is another case: reading
    it raises [UnicodeDecodeError].) *)
Definition nothing_to_load (path : string) (w : world) : Prop :=
  files (fs w) !! path = None
  ∨ path ∈ deny_read (fs w)
  ∨ ∃ raw, files (fs w) !! path = Some (Malformed raw).

(** The server grants a create or refresh: a response outside 4xx and
    5xx whose body is an object with [accessJwt] and [did]. *)
Definition grants (resp : response) (o : gmap string pyval) (a d : pyval) : Prop :=
  http_error (status_code resp) = false
  ∧ body resp = Some (JObject o)
  ∧ o !! "accessJwt" = Some a
  ∧ o !! "did" = Some d.

(** ** Concrete scenarios *)

Module Scenario.

Definition no_encoding (params : list (string * string)) : string := "".

Definition tokens (a r : string) : gmap string pyval :=
  {[ "accessJwt" := PStr a; "refreshJwt" := PStr r; "did" := PStr "did:abc" ]}.

Definition granted (a r : string) : net_result :=
  Responds {| status_code := 200; text := "{...}"; body := Some (JObject (tokens a r)) |}.

Definition refused (status : Z) : net_result :=
  Responds {| status_code := status; text := "refused"; body := None |}.

(** Grants every refresh and every create, rejects everything else: 404
    for the endpoint [missing], 401 otherwise. *)
Definition expiring_server (hist : list net_event) (q : request) : net_result :=
  if String.eqb (req_url q) (BASE_URL +:+ "/com.atproto.server.refreshSession")
  then granted "A2" "R2"
  else if String.eqb (req_url q) (BASE_URL +:+ "/com.atproto.server.createSession")
  then granted "A1" "R1"
  else if String.eqb (req_url q) (BASE_URL +:+ "/missing")
  then refused 404
  else refused 401.

(** Rejects refreshes with 400, grants creates, 401 for everything else. *)
Definition stale_server (hist : list net_event) (q : request) : net_result :=
  if String.eqb (req_url q) (BASE_URL +:+ "/com.atproto.server.refreshSession")
  then refused 400
  else if String.eqb (req_url q) (BASE_URL +:+ "/com.atproto.server.createSession")
  then granted "A1" "R1"
  else refused 401.

(** Answers 401 to every request, and grants every refresh with a
    response that has no [did]. *)
Definition partial_server (hist : list net_event) (q : request) : net_result :=
  if String.eqb (req_url q) (BASE_URL +:+ "/com.atproto.server.refreshSession")
  then Responds {| status_code := 200; text := "{...}";
                   body := Some (JObject {[ "accessJwt" := PStr "A9";
                                            "refreshJwt" := PStr "R9" ]}) |}
  else refused 401.

(** No response at all. *)
Definition unreachable_server (hist : list net_event) (q : request) : net_result :=
  Fails "Connection refused".

Definition alice (a r : pyval) : session :=
  {| handle := "alice.bsky.social"; app_password := "app-pw";
     session_file := "session.json";
     access_token := a; refresh_token := r; did := PStr "did:abc" |}.

Definition disk (fl : gmap string file_data) (ro : gset string) : fsys :=
  {| files := fl; deny_read := ∅; deny_write := ro; deny_remove := ro;
     torn_write := ∅ |}.

(** A live session, nothing on disk. *)
Definition w_live : world :=
  {| self := alice (PStr "A0") (PStr "R0"); fs := disk ∅ ∅;
     heap := ∅; net := []; log := [] |}.

(** The same without a refresh token. *)
Definition w_no_refresh : world :=
  {| self := alice (PStr "A0") PNone; fs := disk ∅ ∅;
     heap := ∅; net := []; log := [] |}.

(** The same on a disk that cannot be written. *)
Definition w_readonly : world :=
  {| self := alice (PStr "A0") (PStr "R0"); fs := disk ∅ {[ "session.json" ]};
     heap := ∅; net := []; log := [] |}.

(** A saved session on a disk that is full: the session file can be
    opened for writing, which empties it, and the write then fails. *)
Definition w_disk_full : world :=
  {| self := alice (PStr "A0") (PStr "R0");
     fs := {| files := {[ "session.json" := JsonDoc (JObject (tokens "A0" "R0")) ]};
              deny_read := ∅; deny_write := {[ "session.json" ]}; deny_remove := ∅;
              torn_write := {[ "session.json" := "" ]} |};
     heap := ∅; net := []; log := [] |}.

(** A session file that exists and cannot be removed. *)
Definition w_locked : world :=
  {| self := alice (PStr "A0") (PStr "R0");
     fs := disk {[ "session.json" := JsonDoc (JObject (tokens "A0" "R0")) ]}
                {[ "session.json" ]};
     heap := ∅; net := []; log := [] |}.

(** A saved session on disk. *)
Definition w_saved : world :=
  {| self := alice PNone PNone;
     fs := disk {[ "session.json" := JsonDoc (JObject (tokens "A7" "R7")) ]} ∅;
     heap := ∅; net := []; log := [] |}.

(** A session file whose fields are all null. *)
Definition w_null_blob : world :=
  {| self := alice PNone PNone;
     fs := disk {[ "session.json" := JsonDoc (JObject
                     {[ "accessJwt" := PNone; "refreshJwt" := PNone; "did" := PNone ]}) ]} ∅;
     heap := ∅; net := []; log := [] |}.

(** A session file that is not text: no encoding of text begins with
    the byte 255. *)
Definition w_binary_blob : world :=
  {| self := alice PNone PNone;
     fs := disk {[ "session.json" := NotText (String "255"%char "") ]} ∅;
     heap := ∅; net := []; log := [] |}.

(** A session file that decodes, but not to a record. *)
Definition w_array_blob : world :=
  {| self := alice PNone PNone;
     fs := disk {[ "session.json" := JsonDoc (JArray [PStr "A7"]) ]} ∅;
     heap := ∅; net := []; log := [] |}.

(** The caller holds two dictionaries: an empty one at 1, and one with an
    [Accept] header at 2. *)
Definition w_caller : world :=
  {| self := alice (PStr "A0") (PStr "R0"); fs := disk ∅ ∅;
     heap := {[ 1%positive := ∅; 2%positive := {[ "Accept" := "application/json" ]} ]};
     net := []; log := [] |}.

(** Guarded calls with default arguments: of the timeline, and of an
    endpoint that does not exist. *)
Definition timeline_call (retry : Z) : M json_value :=
  api_call no_encoding expiring_server
    "app.bsky.feed.getTimeline" "GET" None None None None retry.

Definition missing_call (retry : Z) : M json_value :=
  api_call no_encoding expiring_server "missing" "GET" None None None None retry.

(** The timeline call with the caller's dictionary that holds a header,
    against the server whose refresh has no [did]. *)
Definition partial_call : M json_value :=
  api_call no_encoding partial_server
    "app.bsky.feed.getTimeline" "GET" None None (Some 2%positive) None 1.



Definition unauthorized : response :=
  {| status_code := 401; text := "refused"; body := None |}.

(** The response that grants the tokens [a] and [r]. *)
Definition grant (a r : string) : response :=
  {| status_code := 200; text := "{...}"; body := Some (JObject (tokens a r)) |}.

(** Answers every request with status 200 and the object [o]. *)
Definition answering (o : gmap string pyval)
    (hist : list net_event) (q : request) : net_result :=
  Responds {| status_code := 200; text := "{...}"; body := Some (JObject o) |}.

(** Rejects every request with 401. *)
Definition rejecting_server (hist : list net_event) (q : request) : net_result :=
  refused 401.

End Scenario.

(** * Properties *)

Ltac unfold_monad :=
  unfold run, mbind, M_bind, mret, M_ret, raise, try_except, attempt, modify,
    logging, get_self in *.

Section Properties.

Variable urlencode : list (string * string) → string.
Variable transport : list net_event → request → net_result.

(** ** Run equations *)

Lemma save_session_run (w : world) :
  run _save_session w =
    if decide (session_file (self w) ∈ deny_write (fs w))
    then (Raise (failed_write (session_file (self w)) w).1,
          with_log (LogRecord ERROR "Failed to save session file: %s"
                      [LExn (failed_write (session_file (self w)) w).1])
            (failed_write (session_file (self w)) w).2)
    else (Return tt,
          with_log (LogRecord INFO "Session saved to file." [])
            (with_files (<[session_file (self w) :=
                             JsonDoc (JObject (session_record (self w)))]>) w)).
Proof.
  unfold _save_session, open_w_json_dump. unfold_monad. simpl.
  destruct (decide _); [|reflexivity].
  unfold failed_write. destruct (torn_write _ !! _); reflexivity.
Qed.

Lemma failed_write_OSError (path : string) (w : world) :
  ∃ msg, (failed_write path w).1 = OSError msg.
Proof. unfold failed_write. destruct (torn_write _ !! _); simpl; eauto. Qed.

Lemma failed_write_self (path : string) (w : world) :
  self (failed_write path w).2 = self w.
Proof. unfold failed_write. by destruct (torn_write _ !! _). Qed.

Lemma failed_write_net (path : string) (w : world) :
  net (failed_write path w).2 = net w.
Proof. unfold failed_write. by destruct (torn_write _ !! _). Qed.

Lemma post_and_check_run (url : string) (payload : json_value) (what : string) (w : world) :
  run (post_and_check transport url payload what) w =
    let q := post_request url payload in
    let w1 := with_net (NetCall Post q (transport (net w) q)) w in
    match transport (net w) q with
    | Fails msg => (Raise (UnboundLocalError "resp"), w1)
    | Responds resp =>
        if http_error (status_code resp)
        then (Raise (ConnectionError what (HTTPError (status_code resp))),
              with_log (LogRecord ERROR "Error %s: %s"
                          [LInt (status_code resp); LStr (text resp)]) w1)
        else (Return resp, w1)
    end.
Proof.
  unfold post_and_check, requests_post, requests_send, raise_for_status, on_post_error,
    http_error, post_request.
  unfold_monad. simpl.
  destruct (transport _ _) as [resp|msg]; simpl; [|reflexivity].
  destruct (_ && _); reflexivity.
Qed.

Lemma adopt_run (resp : response) (done : string) (w : world) :
  run (adopt resp done) w =
    match body resp with
    | None => (Raise (RequestException ResponseJSONDecodeError), w)
    | Some (JObject o) =>
        match o !! "accessJwt" with
        | None => (Raise (KeyError "accessJwt"), w)
        | Some a =>
            let w1 := with_self (put_refresh_token (default PNone (o !! "refreshJwt")))
                        (with_self (put_access_token a) w) in
            match o !! "did" with
            | None => (Raise (KeyError "did"), w1)
            | Some d =>
                match run _save_session (with_self (put_did d) w1) with
                | (Return _, w3) => (Return tt, with_log (LogRecord INFO done []) w3)
                | (Raise e, w3) => (Raise e, w3)
                end
            end
        end
    | Some _ => (Raise TypeError, w)
    end.
Proof.
  unfold adopt, resp_json, store_tokens, subscript, json_get.
  destruct (body resp) as [[o|l|v]|]; try reflexivity.
  unfold_monad. simpl.
  destruct (o !! "accessJwt"); [|reflexivity]. simpl.
  destruct (o !! "did"); reflexivity.
Qed.

Lemma create_session_run (w : world) :
  run (_create_session transport) w =
    match run (post_and_check transport (req_url (create_request (self w)))
                 (JObject {[ "identifier" := PStr (handle (self w));
                             "password" := PStr (app_password (self w)) ]})
                 "Error creating session: ") w with
    | (Return resp, w1) => run (adopt resp "New session created.") w1
    | (Raise e, w1) => (Raise e, w1)
    end.
Proof. reflexivity. Qed.

Lemma refresh_run (w : world) :
  run (_refresh_access_token transport) w =
    if truthy (refresh_token (self w))
    then match run (post_and_check transport (req_url (refresh_request (self w)))
                      (JObject {[ "refreshToken" := refresh_token (self w) ]})
                      "Error refreshing session: ") w with
         | (Return resp, w1) => run (adopt resp "Access token refreshed successfully.") w1
         | (Raise e, w1) => (Raise e, w1)
         end
    else (Raise (ValueError "Refresh token is missing."),
          with_log (LogRecord ERROR "No refresh token available." []) w).
Proof.
  unfold _refresh_access_token. unfold_monad. simpl.
  destruct (truthy _); reflexivity.
Qed.

Lemma refresh_or_create_run (w : world) :
  run (refresh_or_create transport) w =
    match run (_refresh_access_token transport) w with
    | (Raise (ConnectionError msg cause), w1) =>
        run (_create_session transport)
          (with_log (LogRecord INFO "Creating a new session." [])
             (with_log (LogRecord ERROR "Failed to refresh token: %s"
                          [LExn (ConnectionError msg cause)]) w1))
    | other => other
    end.
Proof.
  unfold refresh_or_create. unfold_monad.
  destruct (_refresh_access_token transport w) as [[[]|[]] w1]; reflexivity.
Qed.

Lemma load_session_run (w : world) :
  let path := session_file (self w) in
  run (_load_session transport) w =
    match files (fs w) !! path with
    | None =>
        run (_create_session transport)
          (with_log (LogRecord INFO
             "No existing session file found. Creating a new session." []) w)
    | Some fd =>
        let recreate e :=
          run (_create_session transport)
            (with_log (LogRecord INFO "Creating a new session." [])
               (with_log (LogRecord WARNING "Failed to load session file: %s" [LExn e]) w)) in
        if decide (path ∈ deny_read (fs w)) then recreate (OSError "Permission denied")
        else match fd with
             | Malformed _ => recreate JSONDecodeError
             | NotText _ => (Raise UnicodeDecodeError, w)
             | JsonDoc (JObject o) =>
                 (Return tt,
                  with_log (LogRecord INFO "Session loaded from file." [])
                    (with_self (put_did (default PNone (o !! "did")))
                       (with_self (put_refresh_token (default PNone (o !! "refreshJwt")))
                          (with_self (put_access_token (default PNone (o !! "accessJwt"))) w))))
             | JsonDoc _ => (Raise AttributeError, w)
             end
    end.
Proof.
  unfold _load_session, os_path_exists, open_r_json_load, json_get. unfold_monad. simpl.
  destruct (files (fs w) !! session_file (self w)) as [fd|] eqn:Hf.
  - rewrite bool_decide_eq_true_2 by eauto.
    destruct (decide _); [reflexivity|]. simpl. rewrite Hf.
    destruct fd as [[o|l|v]|raw|bytes]; reflexivity.
  - rewrite bool_decide_eq_false_2 by (intros [? ?]; congruence). reflexivity.
Qed.

Lemma headers_or_new_run (headers : option loc) (w : world) :
  run (headers_or_new headers) w =
    (Return (chosen_headers headers w).1, (chosen_headers headers w).2).
Proof.
  unfold headers_or_new, chosen_headers, new_dict, deref. unfold_monad.
  destruct headers as [l|]; [|reflexivity]. simpl.
  destruct (bool_decide _); reflexivity.
Qed.

Lemma api_call_body_run self_api_call (endpoint method : string)
    (json : option json_value) (data : option string) (headers : option loc)
    (params : option (list (string * string))) (retry : Z) (w : world) :
  run (api_call_body urlencode transport self_api_call
         endpoint method json data headers params retry) w =
    let l := (chosen_headers headers w).1 in
    let wb := authorize l (chosen_headers headers w).2 in
    let q := attempt_request urlencode endpoint method json data params l wb in
    let wc := with_net (NetCall Request q (transport (net wb) q)) wb in
    logged
      match transport (net wb) q with
      | Fails msg => (Raise (RequestException (TransportError msg)), wc)
      | Responds resp =>
          if auth_failure (status_code resp) && (0 <? retry)
          then match run (refresh_or_create transport) (with_log recovery_started wc) with
               | (Return _, wd) =>
                   run (self_api_call endpoint method json data (Some l) params (retry - 1))
                     (authorize l wd)
               | (Raise e, wd) => (Raise e, wd)
               end
          else (conclusion resp, wc)
      end.
Proof.
  unfold api_call_body.
  unfold run at 1. unfold mbind at 1, M_bind at 1.
  pose proof (headers_or_new_run headers w) as Hh. unfold run in Hh. rewrite Hh. clear Hh.
  generalize (chosen_headers headers w). intros [l wa]. simpl fst. simpl snd.
  unfold get_auth_header, dict_update, deref, requests_request, requests_send,
    raise_for_status, resp_json, conclusion, http_error, logged.
  unfold_monad. simpl.
  fold (authorize l wa).
  destruct (transport _ _) as [resp|msg]; simpl; [|reflexivity].
  destruct (auth_failure _ && _); simpl.
  - destruct (refresh_or_create transport _) as [[[]|e] wd]; simpl; [|reflexivity].
    fold (authorize l wd). destruct (self_api_call _ _ _ _ _ _ _ _) as [[a|e] w2]; reflexivity.
  - destruct (_ && _); simpl; [reflexivity|].
    destruct (body resp); reflexivity.
Qed.

(** The recursion of the method, on [retry] itself: with [retry] units of
    fuel the loop is the method body applied to the method. *)
Lemma api_call_unfold (endpoint method : string) (json : option json_value)
    (data : option string) (headers : option loc)
    (params : option (list (string * string))) (retry : Z) :
  0 < retry →
  api_call urlencode transport endpoint method json data headers params retry =
  api_call_body urlencode transport
    (λ endpoint method json data headers params retry',
       api_call_loop urlencode transport (Z.to_nat (retry - 1))
         endpoint method json data headers params retry')
    endpoint method json data headers params retry.
Proof.
  intros Hr. unfold api_call.
  replace (Z.to_nat retry) with (S (Z.to_nat (retry - 1))) by lia.
  reflexivity.
Qed.

(** For every [retry] the method is its body applied to itself: the fuel
    never runs out, and the [RecursionError] of [api_call_loop] is never
    raised. *)
Lemma api_call_equation (endpoint method : string) (json : option json_value)
    (data : option string) (headers : option loc)
    (params : option (list (string * string))) (retry : Z) (w : world) :
  run (api_call urlencode transport endpoint method json data headers params retry) w =
  run (api_call_body urlencode transport (api_call urlencode transport)
         endpoint method json data headers params retry) w.
Proof.
  destruct (decide (0 < retry)) as [Hretry|Hretry].
  - rewrite api_call_unfold by done. by rewrite !api_call_body_run.
  - unfold api_call at 1. replace (Z.to_nat retry) with 0%nat by lia.
    simpl api_call_loop. rewrite !api_call_body_run. cbv zeta.
    replace (0 <? retry) with false by (symmetry; apply Z.ltb_ge; lia).
    destruct (transport _ _) as [resp|msg]; [|done].
    by rewrite andb_false_r.
Qed.


(** ** What create and refresh leave alone *)

Lemma quiet_refl (w : world) : quiet w w.
Proof.
  split; try reflexivity; exists []; split; auto using app_nil_r.
Qed.

Lemma quiet_trans (w1 w2 w3 : world) : quiet w1 w2 → quiet w2 w3 → quiet w1 w3.
Proof.
  intros [Hh Ha Hp Hf (e1 & Hn & He1) (r1 & Hl & Hr1)]
         [Hh' Ha' Hp' Hf' (e2 & Hn' & He2) (r2 & Hl' & Hr2)].
  split; try congruence.
  - exists (e1 ++ e2). rewrite Hn', Hn, app_assoc. split; [done|]. by apply Forall_app.
  - exists (r1 ++ r2). rewrite Hl', Hl, app_assoc. split; [done|]. by apply Forall_app.
Qed.

Lemma quiet_with_log (r : log_record) (w : world) :
  is_recovery_start r = false → quiet w (with_log r w).
Proof.
  intros Hr. split; try reflexivity.
  - exists []. split; auto using app_nil_r.
  - exists [r]. split; [done|]. by repeat constructor.
Qed.

Lemma quiet_with_post (q : request) (o : net_result) (w : world) :
  quiet w (with_net (NetCall Post q o) w).
Proof.
  split; try reflexivity.
  - exists [NetCall Post q o]. split; [done|]. by repeat constructor.
  - exists []. split; auto using app_nil_r.
Qed.

Lemma quiet_with_files f (w : world) : quiet w (with_files f w).
Proof.
  split; try reflexivity; exists []; split; auto using app_nil_r.
Qed.

Lemma quiet_with_token (f : session → session) (w : world) :
  (∃ v, f = put_access_token v ∨ f = put_refresh_token v ∨ f = put_did v) →
  quiet w (with_self f w).
Proof.
  intros [v [-> | [-> | ->]]];
    (split; try reflexivity; exists []; split; auto using app_nil_r).
Qed.

Ltac quiet_chain :=
  lazymatch goal with
  | |- quiet ?w ?w => apply quiet_refl
  | |- quiet ?w (with_log ?r ?w1) =>
      apply (quiet_trans w w1); [quiet_chain | apply quiet_with_log; reflexivity]
  | |- quiet ?w (with_net (NetCall Post ?q ?o) ?w1) =>
      apply (quiet_trans w w1); [quiet_chain | apply quiet_with_post]
  | |- quiet ?w (with_files ?f ?w1) =>
      apply (quiet_trans w w1); [quiet_chain | apply quiet_with_files]
  | |- quiet ?w (with_self ?f ?w1) =>
      apply (quiet_trans w w1); [quiet_chain | apply quiet_with_token; eauto]
  | |- quiet _ _ => eassumption
  end.

Lemma failed_write_quiet (path : string) (w : world) :
  quiet w (failed_write path w).2.
Proof.
  unfold failed_write. destruct (torn_write _ !! _); simpl; quiet_chain.
Qed.

Lemma save_session_quiet (w : world) : quiet w (run _save_session w).2.
Proof.
  rewrite save_session_run. destruct (decide _); simpl; [|quiet_chain].
  eapply quiet_trans; [apply failed_write_quiet|].
  apply quiet_with_log; reflexivity.
Qed.

Lemma post_and_check_quiet url payload what (w : world) :
  quiet w (run (post_and_check transport url payload what) w).2.
Proof.
  rewrite post_and_check_run. simpl.
  destruct (transport _ _) as [resp|msg]; [destruct (http_error _)|]; simpl;
    quiet_chain.
Qed.

Lemma adopt_quiet resp done (w : world) :
  is_recovery_start (LogRecord INFO done []) = false →
  quiet w (run (adopt resp done) w).2.
Proof.
  intros Hdone. rewrite adopt_run.
  destruct (body resp) as [[o|l|v]|]; simpl; try quiet_chain.
  destruct (o !! "accessJwt"); simpl; try quiet_chain.
  destruct (o !! "did"); simpl; try quiet_chain.
  match goal with |- context [run _save_session ?w1] =>
    pose proof (save_session_quiet w1) as Hs;
    destruct (run _save_session w1) as [[[]|e] w3]
  end; simpl in *.
  - eapply quiet_trans; [|apply quiet_with_log; exact Hdone].
    eapply quiet_trans; [|exact Hs]. quiet_chain.
  - eapply quiet_trans; [|exact Hs]. quiet_chain.
Qed.

(** Adopting a response makes no call. *)
Lemma adopt_net resp done (w : world) : net (run (adopt resp done) w).2 = net w.
Proof.
  rewrite adopt_run.
  destruct (body resp) as [[o|l|v]|]; simpl; try reflexivity.
  destruct (o !! "accessJwt"); simpl; try reflexivity.
  destruct (o !! "did"); simpl; try reflexivity.
  rewrite save_session_run. destruct (decide _); [|reflexivity].
  simpl. by rewrite failed_write_net.
Qed.

(** Nor does it ever raise the builtin [ConnectionError]. *)
Lemma adopt_not_ConnectionError resp done (w : world) e w' :
  run (adopt resp done) w = (Raise e, w') → is_ConnectionError e = false.
Proof.
  rewrite adopt_run.
  destruct (body resp) as [[o|l|v]|]; simpl; try (intros [= <- _]; reflexivity).
  destruct (o !! "accessJwt"); simpl; try (intros [= <- _]; reflexivity).
  destruct (o !! "did"); simpl; try (intros [= <- _]; reflexivity).
  rewrite save_session_run. destruct (decide _); intros [= <- _].
  simpl.
  by destruct (failed_write_OSError (session_file (self w))
                 (with_self (put_did p0)
                    (with_self (put_refresh_token (default PNone (o !! "refreshJwt")))
                       (with_self (put_access_token p) w)))) as [msg ->].
Qed.

Lemma lifecycle_quiet (op : lifecycle_op) (w : world) :
  quiet w (run (lifecycle_run transport op) w).2.
Proof.
  destruct op; simpl.
  - rewrite create_session_run.
    match goal with |- context [run (post_and_check ?t ?u ?p ?m) w] =>
      pose proof (post_and_check_quiet u p m w) as Hp;
      destruct (run (post_and_check t u p m) w) as [[resp|e] w1]
    end; simpl in *; [|exact Hp].
    eapply quiet_trans; [exact Hp|]. by apply adopt_quiet.
  - rewrite refresh_run. destruct (truthy _); simpl; [|quiet_chain].
    match goal with |- context [run (post_and_check ?t ?u ?p ?m) w] =>
      pose proof (post_and_check_quiet u p m w) as Hp;
      destruct (run (post_and_check t u p m) w) as [[resp|e] w1]
    end; simpl in *; [|exact Hp].
    eapply quiet_trans; [exact Hp|]. by apply adopt_quiet.
Qed.

Lemma refresh_or_create_quiet (w : world) :
  quiet w (run (refresh_or_create transport) w).2.
Proof.
  rewrite refresh_or_create_run.
  pose proof (lifecycle_quiet Refresh w) as Hr. simpl in Hr.
  destruct (run (_refresh_access_token transport) w) as [[[]|e] w1]; simpl in *;
    [exact Hr|].
  destruct e; try exact Hr.
  eapply quiet_trans; [|apply (lifecycle_quiet Create)].
  quiet_chain.
Qed.

(** ** The calls of one recovery *)

(** A recovery posts nothing (no refresh token: [ValueError]), or one
    refresh, or a refresh answered with a 4xx or 5xx status and then one
    create. *)
Lemma refresh_or_create_cases (w : world) rr w' :
  run (refresh_or_create transport) w = (rr, w') →
  (truthy (refresh_token (self w)) = false
   ∧ rr = Raise (ValueError "Refresh token is missing.")
   ∧ net w' = net w)
  ∨ (∃ o, truthy (refresh_token (self w)) = true
      ∧ (∀ r, o = Responds r → http_error (status_code r) = false)
      ∧ net w' = net w ++ [NetCall Post (refresh_request (self w)) o])
  ∨ (∃ r o, truthy (refresh_token (self w)) = true
      ∧ http_error (status_code r) = true
      ∧ net w' = net w ++ [NetCall Post (refresh_request (self w)) (Responds r);
                           NetCall Post (create_request (self w)) o]).
Proof.
  rewrite refresh_or_create_run, refresh_run.
  destruct (truthy (refresh_token (self w))) eqn:Ht.
  2:{ intros [= <- <-]. left. auto. }
  rewrite post_and_check_run. simpl.
  change (post_request _ _) with (refresh_request (self w)).
  destruct (transport (net w) (refresh_request (self w))) as [resp|msg] eqn:Ho.
  - destruct (http_error (status_code resp)) eqn:Hs.
    + rewrite create_session_run, post_and_check_run. simpl.
      change (post_request _ _) with (create_request (self w)).
      set (o := transport _ (create_request (self w))).
      set (w1 := with_net (NetCall Post (create_request (self w)) o) _).
      intros H. right. right. exists resp, o. split; [done|]. split; [done|].
      assert (net w' = net w1) as ->.
      { destruct o as [r2|msg2]; [destruct (http_error (status_code r2))|];
          try (injection H as _ <-; reflexivity).
        pose proof (adopt_net r2 "New session created." w1) as Hn.
        rewrite H in Hn. exact Hn. }
      subst w1. simpl. by rewrite <- app_assoc.
    + set (w1 := with_net _ w).
      pose proof (adopt_net resp "Access token refreshed successfully." w1) as Hn.
      destruct (run (adopt resp "Access token refreshed successfully.") w1)
        as [[[]|e] w2] eqn:Ha.
      * intros [= <- <-]. right. left. exists (Responds resp).
        split; [done|]. split; [by intros r [= <-]|]. exact Hn.
      * pose proof (adopt_not_ConnectionError _ _ _ _ _ Ha) as He.
        intros H. right. left. exists (Responds resp).
        split; [done|]. split; [by intros r [= <-]|].
        destruct e; try discriminate He; injection H as _ <-; exact Hn.
  - intros [= <- <-]. right. left. exists (Fails msg).
    split; [done|]. split; [by intros r [=]|]. reflexivity.
Qed.

(** ** Traces *)

Lemma new_net_app (w w' : world) evs : net w' = net w ++ evs → new_net w w' = evs.
Proof. unfold new_net. intros ->. apply drop_app_length. Qed.

Lemma new_log_app (w w' : world) rs : log w' = log w ++ rs → new_log w w' = rs.
Proof. unfold new_log. intros ->. apply drop_app_length. Qed.

Lemma attempts_app (l1 l2 : list net_event) :
  attempts (l1 ++ l2) = attempts l1 ++ attempts l2.
Proof. apply omap_app. Qed.

Lemma attempts_posts (evs : list net_event) :
  Forall (λ e, is_post e = true) evs → attempts evs = [].
Proof.
  induction 1 as [|[[] q o] evs Hp _ IH]; [done| |discriminate Hp].
  exact IH.
Qed.

Lemma recovery_attempts_app (r1 r2 : list log_record) :
  recovery_attempts (r1 ++ r2) = (recovery_attempts r1 + recovery_attempts r2)%nat.
Proof. unfold recovery_attempts. by rewrite filter_app, length_app. Qed.

Lemma recovery_attempts_none (rs : list log_record) :
  Forall (λ r, is_recovery_start r = false) rs → recovery_attempts rs = 0%nat.
Proof.
  unfold recovery_attempts. induction 1 as [|r rs Hr _ IH]; [done|].
  rewrite filter_cons_False by congruence. exact IH.
Qed.

Lemma recovery_attempts_started (rs : list log_record) :
  recovery_attempts (recovery_started :: rs) = S (recovery_attempts rs).
Proof. unfold recovery_attempts. by rewrite filter_cons_True. Qed.

Lemma logged_result x : (logged x).1 = x.1.
Proof. destruct x as [[a|e] w]; simpl; [done|]. by destruct (is_RequestException e). Qed.

Lemma logged_net x : net (logged x).2 = net x.2.
Proof. destruct x as [[a|e] w]; simpl; [done|]. by destruct (is_RequestException e). Qed.

Lemma logged_heap x : heap (logged x).2 = heap x.2.
Proof. destruct x as [[a|e] w]; simpl; [done|]. by destruct (is_RequestException e). Qed.

Lemma logged_self x : self (logged x).2 = self x.2.
Proof. destruct x as [[a|e] w]; simpl; [done|]. by destruct (is_RequestException e). Qed.

Lemma logged_log x :
  ∃ rs, log (logged x).2 = log x.2 ++ rs ∧ Forall (λ r, is_recovery_start r = false) rs.
Proof.
  destruct x as [[a|e] w]; simpl; [exists []; by rewrite app_nil_r|].
  destruct (is_RequestException e); simpl.
  - eexists [_]. split; [done|]. by repeat constructor.
  - exists []. by rewrite app_nil_r.
Qed.

Lemma chosen_headers_frame (headers : option loc) (w : world) :
  net (chosen_headers headers w).2 = net w
  ∧ log (chosen_headers headers w).2 = log w
  ∧ self (chosen_headers headers w).2 = self w.
Proof.
  unfold chosen_headers. destruct headers as [l|]; [destruct (bool_decide _)|]; done.
Qed.

Section GuardedTrace.

Variables (endpoint method : string) (json : option json_value) (data : option string).
Variable params : option (list (string * string)).

Local Abbreviation same := (same_call urlencode endpoint method json data params).
Local Abbreviation shaped := (guarded_trace urlencode endpoint method json data params).

Lemma same_call_attempt (l : loc) (w : world) :
  same (attempt_request urlencode endpoint method json data params l w).
Proof. by repeat split. Qed.

Lemma guarded_single retry q o rs :
  same q → Forall (λ r, is_recovery_start r = false) rs →
  shaped retry [NetCall Request q o] rs (final_result o).
Proof.
  intros Hq Hrs. unfold guarded_trace. simpl.
  rewrite (recovery_attempts_none rs Hrs).
  split; [eauto|]. split; [constructor; [exact Hq|constructor]|]. split; [lia|].
  left. eauto.
Qed.

Lemma guarded_recovery_failed retry q o evs1 rs1 rs2 e :
  0 < retry → same q →
  Forall (λ e, is_post e = true) evs1 →
  Forall (λ r, is_recovery_start r = false) rs1 →
  Forall (λ r, is_recovery_start r = false) rs2 →
  shaped retry (NetCall Request q o :: evs1) (recovery_started :: rs1 ++ rs2) (Raise e).
Proof.
  intros Hr Hq He1 Hr1 Hr2. unfold guarded_trace. simpl.
  rewrite (attempts_posts evs1 He1), recovery_attempts_started, recovery_attempts_app,
    (recovery_attempts_none rs1 Hr1), (recovery_attempts_none rs2 Hr2).
  split; [eauto|]. split; [constructor; [exact Hq|constructor]|]. split; [lia|].
  right. eauto.
Qed.

Lemma guarded_reissue retry q o evs1 evs2 rs1 rs2 rs3 res :
  0 < retry → same q →
  Forall (λ e, is_post e = true) evs1 →
  Forall (λ r, is_recovery_start r = false) rs1 →
  Forall (λ r, is_recovery_start r = false) rs3 →
  shaped (retry - 1) evs2 rs2 res →
  shaped retry (NetCall Request q o :: evs1 ++ evs2)
    (recovery_started :: rs1 ++ rs2 ++ rs3) res.
Proof.
  intros Hr Hq He1 Hr1 Hr3 (Hfirst & Hsame & Hbound & Hend).
  unfold guarded_trace. simpl.
  rewrite attempts_app, (attempts_posts evs1 He1), recovery_attempts_started,
    !recovery_attempts_app, (recovery_attempts_none rs1 Hr1),
    (recovery_attempts_none rs3 Hr3). simpl.
  split; [eauto|]. split; [constructor; [exact Hq|exact Hsame]|]. split; [lia|].
  destruct Hend as [(Hlen & q2 & o2 & Hlast & ->) | (Hlen & e & ->)].
  - left. split; [lia|]. exists q2, o2. split; [|done].
    destruct (attempts evs2) as [|a A]; [discriminate Hlast|]. exact Hlast.
  - right. split; [lia|]. eauto.
Qed.

(** The body of the method leaves a well-shaped trace when its call to
    itself does, or when that call raises at once. *)
Lemma api_call_body_trace self_api_call :
  (∀ headers retry w res w',
     run (self_api_call endpoint method json data headers params retry) w = (res, w') →
     ∃ evs rs, net w' = net w ++ evs ∧ log w' = log w ++ rs
       ∧ (shaped retry evs rs res ∨ (evs = [] ∧ rs = [] ∧ ∃ e, res = Raise e))) →
  ∀ headers retry w res w',
    run (api_call_body urlencode transport self_api_call
           endpoint method json data headers params retry) w = (res, w') →
    ∃ evs rs, net w' = net w ++ evs ∧ log w' = log w ++ rs ∧ shaped retry evs rs res.
Proof.
  intros Hself headers retry w res w'. rewrite api_call_body_run. cbv zeta.
  destruct (chosen_headers_frame headers w) as (Hn0 & Hl0 & _).
  set (l := (chosen_headers headers w).1).
  set (wb := authorize l (chosen_headers headers w).2).
  assert (net wb = net w) as Hnb by exact Hn0.
  assert (log wb = log w) as Hlb by exact Hl0.
  set (q := attempt_request urlencode endpoint method json data params l wb).
  pose proof (same_call_attempt l wb) as Hq. fold q in Hq.
  clearbody q. clearbody wb. clearbody l. clear Hn0 Hl0.
  intros H.
  match type of H with logged ?x = _ =>
    pose proof (logged_result x) as Hres; pose proof (logged_net x) as Hnet;
    destruct (logged_log x) as (rs3 & Hlog & Hrs3);
    rewrite H in Hres, Hnet, Hlog; simpl fst in Hres; simpl snd in Hnet, Hlog
  end.
  clear H. subst res. rewrite Hnet, Hlog. clear Hnet Hlog.
  destruct (transport (net wb) q) as [resp|msg] eqn:Ho.
  2:{ exists [NetCall Request q (Fails msg)], rs3. simpl. rewrite Hnb, Hlb.
      split; [done|]. split; [done|]. by apply (guarded_single retry q (Fails msg)). }
  set (wc := with_net (NetCall Request q (Responds resp)) wb).
  destruct (auth_failure (status_code resp) && (0 <? retry)) eqn:Hcond.
  2:{ exists [NetCall Request q (Responds resp)], rs3. simpl. rewrite Hnb, Hlb.
      split; [done|]. split; [done|]. by apply (guarded_single retry q (Responds resp)). }
  apply andb_true_iff in Hcond as [_ Hretry]. apply Z.ltb_lt in Hretry.
  pose proof (refresh_or_create_quiet (with_log recovery_started wc)) as Hquiet.
  destruct (run (refresh_or_create transport) (with_log recovery_started wc))
    as [[[]|e] wd]; simpl in Hquiet;
    destruct Hquiet as [_ _ _ _ (evs1 & Hn1 & He1) (rs1 & Hl1 & Hr1)];
    simpl in Hn1, Hl1; rewrite Hnb in Hn1; rewrite Hlb in Hl1.
  - destruct (run (self_api_call endpoint method json data (Some l) params (retry - 1))
                (authorize l wd)) as [res2 w2] eqn:Hrec.
    apply Hself in Hrec as (evs2 & rs2 & Hn2 & Hl2 & Hshape). simpl in *.
    rewrite Hn2, Hl2, Hn1, Hl1.
    destruct Hshape as [Hshape | (-> & -> & e & ->)].
    + exists (NetCall Request q (Responds resp) :: evs1 ++ evs2),
        (recovery_started :: rs1 ++ rs2 ++ rs3).
      split; [by rewrite <- !app_assoc|]. split; [by rewrite <- !app_assoc|].
      by apply guarded_reissue.
    + exists (NetCall Request q (Responds resp) :: evs1), (recovery_started :: rs1 ++ rs3).
      split; [by rewrite app_nil_r, <- !app_assoc|].
      split; [by rewrite app_nil_r, <- !app_assoc|].
      by apply guarded_recovery_failed.
  - simpl. rewrite Hn1, Hl1.
    exists (NetCall Request q (Responds resp) :: evs1), (recovery_started :: rs1 ++ rs3).
    split; [by rewrite <- !app_assoc|]. split; [by rewrite <- !app_assoc|].
    by apply guarded_recovery_failed.
Qed.

(** Whatever the fuel, a guarded call leaves a well-shaped trace. *)
Lemma api_call_loop_trace (fuel : nat) headers retry w res w' :
  run (api_call_loop urlencode transport fuel
         endpoint method json data headers params retry) w = (res, w') →
  ∃ evs rs, net w' = net w ++ evs ∧ log w' = log w ++ rs ∧ shaped retry evs rs res.
Proof.
  revert headers retry w res w'.
  induction fuel as [|fuel IH]; intros headers retry w res w'; simpl;
    apply api_call_body_trace.
  - intros h r w0 res0 w0' [= <- <-]. exists [], [].
    rewrite !app_nil_r. eauto 10.
  - intros h r w0 res0 w0' Hrun. apply IH in Hrun as (evs & rs & ? & ? & ?). eauto 10.
Qed.

End GuardedTrace.

(** ** The guarded call *)

Lemma auth_failure_http_error (status : Z) :
  auth_failure status = true → http_error status = true.
Proof.
  unfold auth_failure. intros H. apply bool_decide_eq_true in H.
  apply elem_of_cons in H as [->|H]; [reflexivity|].
  apply elem_of_cons in H as [->|H]; [reflexivity|].
  by apply elem_of_nil in H.
Qed.

(** The first recovery of a guarded call whose first attempt is answered
    with a status of the auth-failure set, with budget left: what it
    posts, and what follows it. *)
Lemma first_recovery (endpoint method : string) (json : option json_value)
    (data : option string) (headers : option loc)
    (params : option (list (string * string))) (retry : Z)
    (w w' : world) res q1 r1 rest :
  run (api_call urlencode transport endpoint method json data headers params retry) w
    = (res, w') →
  0 < retry →
  new_net w w' = NetCall Request q1 (Responds r1) :: rest →
  auth_failure (status_code r1) = true →
  first_recovery_outcome urlencode transport endpoint method json data headers params retry
    w w' res q1 r1 rest.
Proof.
  intros H Hretry Hnew Hauth.
  unfold first_recovery_outcome, recovery_world, first_attempt. cbv zeta.
  rewrite api_call_unfold, api_call_body_run in H by done. cbv zeta in H.
  destruct (chosen_headers_frame headers w) as (Hn0 & _ & Hs0).
  set (l := (chosen_headers headers w).1) in *.
  set (wb := authorize l (chosen_headers headers w).2) in *.
  assert (net wb = net w) as Hnb by exact Hn0.
  assert (self wb = self w) as Hsb by exact Hs0.
  set (q := attempt_request urlencode endpoint method json data params l wb) in *.
  pose proof (same_call_attempt endpoint method json data params l wb) as Hq.
  fold q in Hq. clearbody q. clearbody wb. clearbody l. clear Hn0 Hs0.
  match type of H with logged ?x = _ =>
    pose proof (logged_result x) as Hres; pose proof (logged_net x) as Hnet;
    rewrite H in Hres, Hnet; simpl fst in Hres; simpl snd in Hnet
  end.
  destruct (transport (net wb) q) as [resp|msg] eqn:Ho.
  2:{ simpl in Hnet. rewrite Hnb in Hnet.
      rewrite (new_net_app _ _ _ Hnet) in Hnew. discriminate Hnew. }
  destruct (auth_failure (status_code resp) && (0 <? retry)) eqn:Hcond.
  2:{ simpl in Hnet. rewrite Hnb in Hnet.
      rewrite (new_net_app _ _ _ Hnet) in Hnew. injection Hnew as _ <- _.
      rewrite Hauth in Hcond. simpl in Hcond. apply Z.ltb_ge in Hcond. lia. }
  set (wc := with_log recovery_started (with_net (NetCall Request q (Responds resp)) wb))
    in *.
  assert (net wc = net w ++ [NetCall Request q (Responds resp)]) as Hnc
    by (simpl; by rewrite Hnb).
  assert (self wc = self w) as Hsc by exact Hsb.
  destruct (run (refresh_or_create transport) wc) as [rr wd] eqn:Hrec.
  pose proof (refresh_or_create_cases _ _ _ Hrec) as Hcases. rewrite Hsc, Hnc in Hcases.
  assert (∃ rec, net wd = net w ++ NetCall Request q (Responds resp) :: rec
      ∧ ((rec = [] ∧ truthy (refresh_token (self w)) = false
          ∧ rr = Raise (ValueError "Refresh token is missing."))
         ∨ (∃ o, rec = [NetCall Post (refresh_request (self w)) o]
              ∧ truthy (refresh_token (self w)) = true
              ∧ ∀ r, o = Responds r → http_error (status_code r) = false)
         ∨ (∃ r o, rec = [NetCall Post (refresh_request (self w)) (Responds r);
                          NetCall Post (create_request (self w)) o]
              ∧ truthy (refresh_token (self w)) = true
              ∧ http_error (status_code r) = true)))
    as (rec & Hnd & Hshape).
  { destruct Hcases as [(Ht & Hrr & Hn) | [(o & Ht & Ho' & Hn) | (r & o & Ht & Hr & Hn)]].
    - exists []. split; [by rewrite Hn|]. left. auto.
    - eexists [_]. split; [by rewrite Hn, <- app_assoc|]. right. left. eauto.
    - eexists [_; _]. split; [by rewrite Hn, <- app_assoc|]. right. right. eauto 10. }
  clear Hcases.
  destruct rr as [[]|e].
  - destruct (run (api_call_loop urlencode transport (Z.to_nat (retry - 1))
                     endpoint method json data (Some l) params (retry - 1))
                (authorize l wd)) as [res2 w2] eqn:Hcall.
    simpl in Hres, Hnet. subst res2.
    destruct (api_call_loop_trace _ _ _ _ _ _ _ _ _ _ _ Hcall)
      as (evs2 & rs2 & Hn2 & _ & (q2 & o2 & more' & ->) & Hsame & _).
    simpl in Hsame. apply Forall_cons_1 in Hsame as [Hq2 _]. simpl in Hq2.
    simpl in Hn2. rewrite Hnd in Hn2. rewrite Hn2, <- app_assoc in Hnet. simpl in Hnet.
    rewrite (new_net_app _ _ _ Hnet) in Hnew. injection Hnew as <- <- <-.
    exists rec, (NetCall Request q2 o2 :: more'), (Return tt), wd.
    split; [done|]. split; [exact Hrec|]. split; [exact Hnd|]. split; [done|].
    split; [exact Hshape|].
    exists w2, q2, o2, more'.
    split; [exact Hcall|]. split; [exact H|]. split; [done|].
    destruct Hq as (-> & -> & -> & ->), Hq2 as (-> & -> & -> & ->). done.
  - simpl in Hres, Hnet. rewrite Hnd in Hnet.
    rewrite (new_net_app _ _ _ Hnet) in Hnew. injection Hnew as <- <- <-.
    exists rec, [], (Raise e), wd.
    split; [done|]. split; [exact Hrec|]. split; [exact Hnd|].
    split; [by rewrite app_nil_r|]. split; [exact Hshape|].
    split; [done | exact H].
Qed.


(** C1 (amended).  With retry budget 1, a guarded call whose first and
    retried attempts are both answered with a status of the auth-failure
    set makes exactly one recovery and no third attempt, and fails with
    the [HTTPError] that [raise_for_status] raises for the status of the
    retried attempt. *)
Theorem exhausted_budget_raises_HTTPError (endpoint method : string)
    (json : option json_value) (data : option string) (headers : option loc)
    (params : option (list (string * string)))
    (w w' : world) res q1 r1 q2 r2 rest :
  run (api_call urlencode transport endpoint method json data headers params 1) w
    = (res, w') →
  attempts (new_net w w') = (q1, Responds r1) :: (q2, Responds r2) :: rest →
  auth_failure (status_code r1) = true →
  auth_failure (status_code r2) = true →
  res = Raise (RequestException (HTTPError (status_code r2)))
  ∧ rest = []
  ∧ recovery_attempts (new_log w w') = 1%nat.
Proof.
  intros H Hatt _ Hauth2.
  destruct (api_call_loop_trace _ _ _ _ _ _ _ _ _ _ _ H)
    as (evs & rs & Hn & Hl & _ & _ & Hbound & Hend).
  rewrite (new_net_app _ _ _ Hn) in Hatt. rewrite (new_log_app _ _ _ Hl).
  rewrite Hatt in Hend. simpl in Hend, Hbound.
  destruct Hend as [(Hlen & q & o & Hlast & ->) | (Hlen & _)]; [|lia].
  assert (rest = []) as -> by (destruct rest; [done|simpl in Hlen; lia]).
  simpl in Hlast, Hlen. injection Hlast as <- <-.
  split; [|split; [done|lia]].
  simpl. unfold conclusion. by rewrite (auth_failure_http_error _ Hauth2).
Qed.

(** A refresh without a stored refresh token fails at once, before any
    call is made. *)
Lemma refresh_without_token (w : world) :
  truthy (refresh_token (self w)) = false →
  run (_refresh_access_token transport) w =
    (Raise (ValueError "Refresh token is missing."),
     with_log (LogRecord ERROR "No refresh token available." []) w).
Proof. intros Ht. by rewrite refresh_run, Ht. Qed.

(** C3.  Inside a guarded call the [ValueError] of a refresh without a
    refresh token is not caught by [except ConnectionError]: after the
    first attempt nothing is posted, no create in particular, and the
    [ValueError] leaves the guarded call. *)
Theorem missing_refresh_token_escapes_api_call (endpoint method : string)
    (json : option json_value) (data : option string) (headers : option loc)
    (params : option (list (string * string))) (retry : Z)
    (w w' : world) res q1 r1 rest :
  run (api_call urlencode transport endpoint method json data headers params retry) w
    = (res, w') →
  0 < retry →
  truthy (refresh_token (self w)) = false →
  new_net w w' = NetCall Request q1 (Responds r1) :: rest →
  auth_failure (status_code r1) = true →
  res = Raise (ValueError "Refresh token is missing.") ∧ rest = [].
Proof.
  intros H Hretry Ht Hnew Hauth.
  destruct (first_recovery _ _ _ _ _ _ _ _ _ _ _ _ _ H Hretry Hnew Hauth)
    as (rec & more & rr & wd & _ & _ & _ & -> & Hshape & Hend).
  destruct Hshape as [(-> & _ & ->) | [(o & _ & Ht' & _) | (r & o & _ & Ht' & _)]];
    [|congruence..].
  destruct Hend as [-> Hend]. split; [|done].
  by injection Hend as <- _.
Qed.

(** ** Create and refresh *)

Lemma lifecycle_run_ready (op : lifecycle_op) (w : world) :
  lifecycle_ready op (self w) = true →
  run (lifecycle_run transport op) w =
    match run (post_and_check transport (req_url (lifecycle_request op (self w)))
                 (lifecycle_payload op (self w)) (lifecycle_error op)) w with
    | (Return resp, w1) => run (adopt resp (lifecycle_done op)) w1
    | (Raise e, w1) => (Raise e, w1)
    end.
Proof.
  destruct op; simpl; intros Hready.
  - apply create_session_run.
  - by rewrite refresh_run, Hready.
Qed.

Lemma lifecycle_post_request (op : lifecycle_op) (s : session) :
  post_request (req_url (lifecycle_request op s)) (lifecycle_payload op s)
  = lifecycle_request op s.
Proof. by destruct op. Qed.

(** C4.  When [requests.post] raises before there is a response, the
    handler reads the unbound local [resp]: what reaches the caller of
    create or refresh is an [UnboundLocalError], not a [ConnectionError],
    and nothing is logged. *)
Theorem no_response_raises_UnboundLocalError (op : lifecycle_op) (w : world) (msg : string) :
  lifecycle_ready op (self w) = true →
  transport (net w) (lifecycle_request op (self w)) = Fails msg →
  run (lifecycle_run transport op) w =
    (Raise (UnboundLocalError "resp"),
     with_net (NetCall Post (lifecycle_request op (self w)) (Fails msg)) w).
Proof.
  intros Hready Hfail.
  rewrite (lifecycle_run_ready op w Hready), post_and_check_run. cbv zeta.
  by rewrite lifecycle_post_request, Hfail.
Qed.

(** The other half of C4: a 4xx or 5xx response does reach the caller as
    the builtin [ConnectionError], after being logged. *)
Lemma error_status_raises_ConnectionError (op : lifecycle_op) (w : world) (resp : response) :
  lifecycle_ready op (self w) = true →
  transport (net w) (lifecycle_request op (self w)) = Responds resp →
  http_error (status_code resp) = true →
  run (lifecycle_run transport op) w =
    (Raise (ConnectionError (lifecycle_error op) (HTTPError (status_code resp))),
     with_log (LogRecord ERROR "Error %s: %s" [LInt (status_code resp); LStr (text resp)])
       (with_net (NetCall Post (lifecycle_request op (self w)) (Responds resp)) w)).
Proof.
  intros Hready Hresp Hstatus.
  rewrite (lifecycle_run_ready op w Hready), post_and_check_run. cbv zeta.
  by rewrite lifecycle_post_request, Hresp, Hstatus.
Qed.

(** C5 (amended).  When the server grants a create or a refresh and the
    session file cannot be written, whether [open] fails or the write
    after it, the write error reaches the caller and the session already
    holds the tokens of the response: nothing restores the old ones. *)
Theorem unsaved_tokens_stay_in_memory (op : lifecycle_op) (w : world)
    (resp : response) (o : gmap string pyval) (a d : pyval) :
  lifecycle_ready op (self w) = true →
  transport (net w) (lifecycle_request op (self w)) = Responds resp →
  http_error (status_code resp) = false →
  body resp = Some (JObject o) →
  o !! "accessJwt" = Some a →
  o !! "did" = Some d →
  session_file (self w) ∈ deny_write (fs w) →
  ∃ msg w', run (lifecycle_run transport op) w = (Raise (OSError msg), w')
    ∧ access_token (self w') = a
    ∧ refresh_token (self w') = default PNone (o !! "refreshJwt")
    ∧ did (self w') = d.
Proof.
  intros Hready Hresp Hstatus Hbody Ha Hd Hdeny.
  rewrite (lifecycle_run_ready op w Hready), post_and_check_run. cbv zeta.
  rewrite lifecycle_post_request, Hresp, Hstatus, adopt_run, Hbody, Ha, Hd.
  cbv zeta. rewrite save_session_run. simpl.
  rewrite decide_True by exact Hdeny.
  match goal with |- context [failed_write ?p ?w1] =>
    destruct (failed_write_OSError p w1) as [msg Hmsg];
    pose proof (failed_write_self p w1) as Hself
  end.
  rewrite Hmsg. eexists msg, _. split; [reflexivity|].
  simpl. rewrite Hself. auto.
Qed.

(** A create that returns has posted once, taken the tokens from the
    response, and written them to the session file. *)
Lemma create_session_success (w w' : world) :
  run (_create_session transport) w = (Return tt, w') →
  ∃ resp o a d,
    net w' = net w ++ [NetCall Post (create_request (self w)) (Responds resp)]
    ∧ body resp = Some (JObject o)
    ∧ o !! "accessJwt" = Some a ∧ o !! "did" = Some d
    ∧ self w' = put_did d (put_refresh_token (default PNone (o !! "refreshJwt"))
                  (put_access_token a (self w)))
    ∧ files (fs w') !! session_file (self w')
      = Some (JsonDoc (JObject (session_record (self w')))).
Proof.
  rewrite create_session_run, post_and_check_run. cbv zeta.
  change (post_request _ _) with (create_request (self w)).
  destruct (transport (net w) (create_request (self w))) as [resp|msg]; [|discriminate].
  destruct (http_error (status_code resp)); [discriminate|].
  rewrite adopt_run.
  destruct (body resp) as [[o|l|v]|] eqn:Hb; try discriminate.
  destruct (o !! "accessJwt") as [a|] eqn:Ha; [|discriminate].
  destruct (o !! "did") as [d|] eqn:Hd; [|discriminate].
  cbv zeta. rewrite save_session_run.
  destruct (decide _); [discriminate|].
  intros [= <-]. exists resp, o, a, d. simpl.
  repeat split; try done. by rewrite lookup_insert_eq.
Qed.

(** *** The caller's headers *)

Lemma chosen_headers_nonempty (l : loc) (d : headers_dict) (w : world) :
  heap w !! l = Some d → d ≠ ∅ → chosen_headers (Some l) w = (l, w).
Proof.
  intros Hl Hd. unfold chosen_headers. rewrite Hl. simpl.
  by rewrite bool_decide_eq_false_2.
Qed.

Lemma authorize_lookup (l : loc) (d : headers_dict) (w : world) :
  heap w !! l = Some d →
  heap (authorize l w) !! l =
    Some (<["Authorization" := "Bearer " +:+ py_str (access_token (self w))]> d).
Proof.
  intros Hl. unfold authorize. simpl. rewrite lookup_insert_eq, Hl. simpl.
  by rewrite insert_union_singleton_l.
Qed.

Lemma authorized_again (d : headers_dict) (t1 t2 : pyval) :
  authorized (authorized d t1) t2 = authorized d t2.
Proof. unfold authorized. apply insert_insert_eq. Qed.

Lemma token_after_app (tok : pyval) (a b : list net_event) :
  token_after tok (a ++ b) = token_after (token_after tok a) b.
Proof.
  revert tok. induction a as [|[[] q o] a IH]; intros tok; simpl; [done|apply IH..].
Qed.

Lemma attempt_tokens_app (tok : pyval) (a b : list net_event) :
  attempt_tokens tok (a ++ b) = attempt_tokens tok a ++ attempt_tokens (token_after tok a) b.
Proof.
  revert tok. induction a as [|[[] q o] a IH]; intros tok; simpl; [done|apply IH|].
  by rewrite IH.
Qed.

Lemma attempt_tokens_posts (tok : pyval) (evs : list net_event) :
  Forall (λ e, is_post e = true) evs → attempt_tokens tok evs = [].
Proof.
  intros H. revert tok.
  induction H as [|[[] q o] evs Hp _ IH]; intros tok; [done| |discriminate Hp].
  apply IH.
Qed.

(** The access token that adopting a response leaves: assigned before the
    [did] is read and before the session is saved. *)
Lemma adopt_token resp done (w : world) :
  access_token (self (run (adopt resp done) w).2) =
    match body resp with
    | Some (JObject ob) => default (access_token (self w)) (ob !! "accessJwt")
    | _ => access_token (self w)
    end.
Proof.
  rewrite adopt_run.
  destruct (body resp) as [[o|l|v]|]; try reflexivity.
  destruct (o !! "accessJwt"); [|reflexivity].
  destruct (o !! "did"); [|reflexivity].
  cbv zeta. rewrite save_session_run.
  destruct (decide _); simpl; [|reflexivity].
  by rewrite failed_write_self.
Qed.

(** A create or a refresh makes posts only, and leaves in the session the
    access token that those posts give. *)
Lemma lifecycle_tracks (op : lifecycle_op) (w : world) :
  ∃ evs, net (run (lifecycle_run transport op) w).2 = net w ++ evs
    ∧ Forall (λ e, is_post e = true) evs
    ∧ access_token (self (run (lifecycle_run transport op) w).2)
      = token_after (access_token (self w)) evs.
Proof.
  destruct (lifecycle_ready op (self w)) eqn:Hready.
  - rewrite (lifecycle_run_ready op w Hready), post_and_check_run. cbv zeta.
    rewrite lifecycle_post_request.
    set (q := lifecycle_request op (self w)).
    exists [NetCall Post q (transport (net w) q)].
    destruct (transport (net w) q) as [resp|msg];
      [|simpl; split; [done|]; split; [by repeat constructor|done]].
    destruct (http_error (status_code resp)) eqn:Hs.
    + simpl. rewrite Hs. split; [done|]. split; [by repeat constructor|done].
    + rewrite adopt_net, adopt_token. simpl. rewrite Hs.
      split; [done|]. split; [by repeat constructor|].
      by destruct (body resp) as [[o|l|v]|].
  - destruct op; [discriminate Hready|]. simpl in *.
    rewrite refresh_run, Hready. exists []. simpl. rewrite app_nil_r. by repeat split.
Qed.

Lemma refresh_or_create_tracks (w : world) :
  ∃ evs, net (run (refresh_or_create transport) w).2 = net w ++ evs
    ∧ Forall (λ e, is_post e = true) evs
    ∧ access_token (self (run (refresh_or_create transport) w).2)
      = token_after (access_token (self w)) evs.
Proof.
  rewrite refresh_or_create_run.
  destruct (lifecycle_tracks Refresh w) as (evs1 & Hn1 & Hp1 & Ht1). simpl in *.
  destruct (run (_refresh_access_token transport) w) as [[[]|e] w1]; simpl in *;
    [by exists evs1|].
  destruct e; try (by exists evs1).
  match goal with |- context [run (_create_session transport) ?w0] =>
    destruct (lifecycle_tracks Create w0) as (evs2 & Hn2 & Hp2 & Ht2)
  end.
  simpl in *. exists (evs1 ++ evs2).
  rewrite Hn2, Ht2, Hn1, Ht1, token_after_app, app_assoc.
  split; [done|]. split; [by apply Forall_app|done].
Qed.

(** The body of the method treats the caller's headers as described when
    its call to itself does. *)
Lemma api_call_body_headers self_api_call (endpoint method : string)
    (json : option json_value) (data : option string)
    (params : option (list (string * string))) (retry : Z)
    (l : loc) (d : headers_dict) (w w' : world) res :
  (0 < retry →
   ∀ d2 w2 res2 w3,
     heap w2 !! l = Some d2 → d2 ≠ ∅ →
     run (self_api_call endpoint method json data (Some l) params (retry - 1)) w2
       = (res2, w3) →
     ∃ evs, net w3 = net w2 ++ evs
       ∧ headers_outcome l d2 (access_token (self w2)) evs res2 w3) →
  heap w !! l = Some d → d ≠ ∅ →
  run (api_call_body urlencode transport self_api_call
         endpoint method json data (Some l) params retry) w = (res, w') →
  ∃ evs, net w' = net w ++ evs ∧ headers_outcome l d (access_token (self w)) evs res w'.
Proof.
  intros Hself Hl Hd. rewrite api_call_body_run. cbv zeta.
  rewrite (chosen_headers_nonempty l d w Hl Hd). simpl fst. simpl snd.
  pose proof (authorize_lookup l d w Hl) as Hb.
  change (heap (authorize l w) !! l = Some (authorized d (access_token (self w)))) in Hb.
  assert (access_token (self (authorize l w)) = access_token (self w)) as Hsb by done.
  assert (net (authorize l w) = net w) as Hnb by done.
  assert (req_headers (attempt_request urlencode endpoint method json data params l
                         (authorize l w))
          = Some (authorized d (access_token (self w)))) as Hq
    by (unfold attempt_request; cbn [req_headers]; by rewrite Hb).
  set (tok := access_token (self w)) in *.
  set (wb := authorize l w) in *.
  set (q := attempt_request urlencode endpoint method json data params l wb) in *.
  clearbody q. clearbody wb. clearbody tok.
  intros H.
  match type of H with logged ?x = _ =>
    pose proof (logged_heap x) as Hheap; pose proof (logged_self x) as Hs;
    pose proof (logged_net x) as Hnet; pose proof (logged_result x) as Hres;
    rewrite H in Hheap, Hs, Hnet, Hres; simpl snd in Hheap, Hs, Hnet; simpl fst in Hres
  end.
  clear H. subst res. unfold headers_outcome. rewrite Hheap, Hs, Hnet. clear Hheap Hs Hnet.
  assert (∀ o (wz : world) rz,
            net wz = net wb ++ [NetCall Request q o] → heap wz = heap wb →
            self wz = self wb →
            ∃ evs, net wz = net w ++ evs
              ∧ (let toks := attempt_tokens tok evs in
                 map (λ a, req_headers a.1) (attempts evs)
                 = map (λ t, Some (authorized d t)) toks
                 ∧ (∃ t, last toks = Some t ∧ heap wz !! l = Some (authorized d t))
                 ∧ access_token (self wz) = token_after tok evs
                 ∧ ((∃ j : json_value, rz = Return j)
                    → last toks = Some (access_token (self wz))))) as Hsingle.
  { intros o wz rz Hnz Hhz Hsz. exists [NetCall Request q o].
    rewrite Hnz, Hnb, Hhz, Hsz, Hsb. simpl. rewrite Hq.
    split; [done|]. split; [done|]. split; [eauto|]. by split. }
  destruct (transport (net wb) q) as [resp|msg]; [|by apply (Hsingle (Fails msg))].
  destruct (auth_failure (status_code resp) && (0 <? retry)) eqn:Hcond;
    [|by apply (Hsingle (Responds resp))].
  clear Hsingle.
  apply andb_true_iff in Hcond as [_ Hretry]. apply Z.ltb_lt in Hretry.
  set (wc := with_log recovery_started (with_net (NetCall Request q (Responds resp)) wb)).
  pose proof (quiet_heap _ _ (refresh_or_create_quiet wc)) as Hquiet.
  destruct (refresh_or_create_tracks wc) as (rec & Hnr & Hpr & Htr).
  destruct (run (refresh_or_create transport) wc) as [[[]|e] wd];
    simpl in Hquiet, Hnr, Htr; rewrite Hnb in Hnr; rewrite Hsb in Htr.
  - assert (heap (authorize l wd) !! l = Some (authorized d (access_token (self wd))))
      as Hb2.
    { rewrite <- Hquiet in Hb. apply authorize_lookup in Hb.
      fold (bearer (access_token (self wd))) in Hb.
      fold (authorized (authorized d tok) (access_token (self wd))) in Hb.
      by rewrite authorized_again in Hb. }
    destruct (run (self_api_call endpoint method json data (Some l) params (retry - 1))
                (authorize l wd)) as [res2 w3] eqn:Hcall.
    apply (Hself Hretry _ _ _ _ Hb2) in Hcall
      as (evs2 & Hn2 & Hmap & (t & Hlast & Hheap) & Htok & Hret);
      [|apply insert_non_empty].
    simpl in Hn2, Hmap, Hlast, Htok, Hret. rewrite Htr in Hmap, Hlast, Htok, Hret.
    exists (NetCall Request q (Responds resp) :: rec ++ evs2).
    simpl. rewrite attempts_app, (attempts_posts rec Hpr), attempt_tokens_app,
      (attempt_tokens_posts tok rec Hpr), token_after_app. simpl.
    rewrite last_cons, Hlast.
    split; [by rewrite Hn2, Hnr, <- !app_assoc|].
    split.
    { rewrite Hq, Hmap. f_equal. apply map_ext. intros t'.
      by rewrite authorized_again. }
    split.
    { exists t. split; [done|]. by rewrite Hheap, authorized_again. }
    split; [exact Htok|].
    intros Hj. rewrite <- Hlast. by apply Hret.
  - exists (NetCall Request q (Responds resp) :: rec).
    simpl. rewrite (attempts_posts rec Hpr), (attempt_tokens_posts tok rec Hpr). simpl.
    rewrite Hquiet, Hb, Hq.
    split; [by rewrite Hnr, <- app_assoc|].
    split; [done|]. split; [eauto|]. split; [exact Htr|].
    by intros [j [=]].
Qed.

Lemma api_call_loop_headers (fuel : nat) (endpoint method : string)
    (json : option json_value) (data : option string)
    (params : option (list (string * string))) (retry : Z)
    (l : loc) (d : headers_dict) (w w' : world) res :
  (Z.to_nat retry ≤ fuel)%nat →
  heap w !! l = Some d → d ≠ ∅ →
  run (api_call_loop urlencode transport fuel
         endpoint method json data (Some l) params retry) w = (res, w') →
  ∃ evs, net w' = net w ++ evs ∧ headers_outcome l d (access_token (self w)) evs res w'.
Proof.
  revert retry d w w' res.
  induction fuel as [|fuel IH]; intros retry d w w' res Hfuel Hl Hd; simpl;
    apply api_call_body_headers; try done.
  - intros Hretry. lia.
  - intros Hretry d2 w2 res2 w3 Hl2 Hd2. apply IH; [lia|done|done].
Qed.

(** C9 (amended).  A non-empty headers dictionary supplied by the caller
    is mutated in place.  Every attempt of the call is sent with what the
    dictionary held and the bearer header of the access token that the
    session holds at that time: the token it had when the call was made
    for the first attempt, the token that the posts of the recoveries
    have given it since for the others.  When [api_call] ends, however it
    ends, the dictionary holds what was sent with the last attempt.  That
    is the bearer header of the session's access token whenever the call
    returns a result; a recovery that raises after it has stored a new
    access token leaves the dictionary with the header of the token
    before. *)
Theorem api_call_updates_caller_headers (endpoint method : string)
    (json : option json_value) (data : option string)
    (params : option (list (string * string))) (retry : Z)
    (l : loc) (d : headers_dict) (w w' : world) res :
  heap w !! l = Some d → d ≠ ∅ →
  run (api_call urlencode transport endpoint method json data (Some l) params retry) w
    = (res, w') →
  headers_outcome l d (access_token (self w)) (new_net w w') res w'.
Proof.
  intros Hl Hd H.
  destruct (api_call_loop_headers (Z.to_nat retry) endpoint method json data params
              retry l d w w' res) as (evs & Hn & Hout); [lia|done|done|exact H|].
  by rewrite (new_net_app _ _ _ Hn).
Qed.

(** ** Bootstrap *)

Lemma init_run (h p : string) (f : option string) (w : world) :
  run (__init__ transport h p f) w =
    run (_load_session transport)
      (with_self (λ _, {| handle := h; app_password := p;
                          session_file := session_file_or_default f;
                          access_token := PNone; refresh_token := PNone;
                          did := PNone |}) w).
Proof. reflexivity. Qed.

(** C7.  Construction from a session file that can be read and that
    [json.load] decodes makes no call and leaves the disk as it was.
    When the file decodes to an object, the three token fields are taken
    from it, a missing field becoming [None].  When it decodes to
    anything else (an array, a string, a number, null), [session.get]
    raises [AttributeError], which the [except] clause of line 106 does
    not catch: construction fails and the session has no tokens. *)
Theorem bootstrap_from_decodable_blob (h p : string) (f : option string)
    (w : world) (j : json_value) :
  files (fs w) !! session_file_or_default f = Some (JsonDoc j) →
  session_file_or_default f ∉ deny_read (fs w) →
  ∃ res w', run (__init__ transport h p f) w = (res, w')
    ∧ net w' = net w ∧ fs w' = fs w
    ∧ match j with
      | JObject o =>
          res = Return tt
          ∧ access_token (self w') = default PNone (o !! "accessJwt")
          ∧ refresh_token (self w') = default PNone (o !! "refreshJwt")
          ∧ did (self w') = default PNone (o !! "did")
      | _ => res = Raise AttributeError ∧ self w' = fresh_session h p f
      end.
Proof.
  intros Hfile Hread. rewrite init_run, load_session_run. simpl.
  rewrite Hfile, decide_False by exact Hread.
  destruct j as [o|l|v]; eexists _, _; (split; [reflexivity|]); by repeat split.
Qed.

(** C6 (amended).  After a construction that completes, the access token
    is the [accessJwt] value of the record it was taken from: the session
    file, when one was loaded, in which case a null or missing field
    leaves the token absent; the response to the one create posted,
    otherwise. *)
Theorem bootstrap_token_source (h p : string) (f : option string) (w w' : world) :
  run (__init__ transport h p f) w = (Return tt, w') →
  (∃ o, files (fs w) !! session_file_or_default f = Some (JsonDoc (JObject o))
      ∧ net w' = net w
      ∧ access_token (self w') = default PNone (o !! "accessJwt"))
  ∨ (∃ resp o v,
      net w' = net w ++ [NetCall Post (create_request (fresh_session h p f))
                           (Responds resp)]
      ∧ body resp = Some (JObject o)
      ∧ o !! "accessJwt" = Some v
      ∧ access_token (self w') = v).
Proof.
  rewrite init_run, load_session_run. simpl.
  assert (∀ w0, net w0 = net w → self w0 = fresh_session h p f →
            run (_create_session transport) w0 = (Return tt, w') →
            ∃ resp o v,
              net w' = net w ++ [NetCall Post (create_request (fresh_session h p f))
                                   (Responds resp)]
              ∧ body resp = Some (JObject o) ∧ o !! "accessJwt" = Some v
              ∧ access_token (self w') = v) as Hcreate.
  { intros w0 Hn0 Hs0 Hrun.
    apply create_session_success in Hrun as (resp & o & a & d & Hn & Hb & Ha & _ & Hs & _).
    exists resp, o, a.
    rewrite <- Hn0, <- Hs0. repeat split; try done. by rewrite Hs. }
  destruct (files (fs w) !! session_file_or_default f) as [fd|] eqn:Hfile.
  - destruct (decide _); [intros H; right; eapply Hcreate; [| |exact H]; reflexivity|].
    destruct fd as [[o|l|v]|raw|bytes]; try discriminate.
    + intros [= <-]. left. exists o. auto.
    + intros H; right; eapply Hcreate; [| |exact H]; reflexivity.
  - intros H; right; eapply Hcreate; [| |exact H]; reflexivity.
Qed.

(** ** Logout *)

(** C8.  Every logout returns normally with the three token fields
    cleared; when the session file exists and cannot be removed it stays,
    and the failure is logged as an error. *)
Theorem logout_clears_unconditionally (w : world) :
  let path := session_file (self w) in
  let present := bool_decide (is_Some (files (fs w) !! path)) in
  let denied := bool_decide (path ∈ deny_remove (fs w)) in
  ∃ w', run logout w = (Return tt, w')
    ∧ self w' = cleared (self w)
    ∧ files (fs w') =
        (if present && negb denied then delete path (files (fs w)) else files (fs w))
    ∧ log w' = log w ++
        (if present
         then if denied
              then [LogRecord ERROR "Error deleting session file: %s"
                      [LExn (OSError "Permission denied")]]
              else [LogRecord INFO "Session file deleted." []]
         else []).
Proof.
  intros path present denied. subst path present denied.
  unfold logout, os_path_exists, os_remove. unfold_monad. simpl.
  destruct (files (fs w) !! session_file (self w)) as [fd|] eqn:Hf.
  - rewrite bool_decide_eq_true_2 by eauto. simpl.
    destruct (decide (session_file (self w) ∈ deny_remove (fs w))) as [Hd|Hd].
    + rewrite (bool_decide_eq_true_2 _ Hd). simpl. eexists. repeat split.
    + rewrite (bool_decide_eq_false_2 _ Hd). simpl. rewrite Hf. eexists. repeat split.
  - rewrite bool_decide_eq_false_2 by (intros [? ?]; congruence). simpl.
    eexists. repeat split. simpl. by rewrite app_nil_r.
Qed.

(** ** The authorization header *)

(** C10.  With no access token, the header is the rendering of [None]. *)
Theorem get_auth_header_absent_token (w : world) :
  access_token (self w) = PNone →
  run get_auth_header w = (Return {[ "Authorization" := "Bearer None" ]}, w).
Proof.
  intros H. unfold get_auth_header. unfold_monad. by rewrite H.
Qed.
(** * Further properties of the session life cycle *)

(** ** Create and refresh *)

Lemma lifecycle_net (op : lifecycle_op) (w : world) :
  net (run (lifecycle_run transport op) w).2 =
    if lifecycle_ready op (self w)
    then net w ++ [NetCall Post (lifecycle_request op (self w))
                     (transport (net w) (lifecycle_request op (self w)))]
    else net w.
Proof.
  destruct (lifecycle_ready op (self w)) eqn:Hready.
  - rewrite (lifecycle_run_ready op w Hready), post_and_check_run. cbv zeta.
    rewrite lifecycle_post_request.
    destruct (transport (net w) (lifecycle_request op (self w))) as [resp|msg]; [|done].
    destruct (http_error (status_code resp)); [done|].
    by rewrite adopt_net.
  - destruct op; [discriminate Hready|]. simpl in *.
    by rewrite refresh_run, Hready.
Qed.

(** X1.  Create and refresh make at most one call, and never retry: a
    [POST] of the identifier and password to [createSession], or of the
    stored refresh token to [refreshSession]; a refresh without a refresh
    token makes none. *)
Theorem lifecycle_posts_once (op : lifecycle_op) (w : world) :
  new_net w (run (lifecycle_run transport op) w).2 =
    if lifecycle_ready op (self w)
    then [NetCall Post (lifecycle_request op (self w))
            (transport (net w) (lifecycle_request op (self w)))]
    else [].
Proof.
  apply new_net_app. rewrite lifecycle_net.
  destruct (lifecycle_ready op (self w)); [done|]. by rewrite app_nil_r.
Qed.

(** A create or refresh that returns was granted by the server, holds the
    tokens of the response, and has written them to the session file. *)
Lemma lifecycle_success (op : lifecycle_op) (w w' : world) :
  run (lifecycle_run transport op) w = (Return tt, w') →
  ∃ resp o a d,
    transport (net w) (lifecycle_request op (self w)) = Responds resp
    ∧ grants resp o a d
    ∧ self w' = put_did d (put_refresh_token (default PNone (o !! "refreshJwt"))
                  (put_access_token a (self w)))
    ∧ files (fs w') = <[session_file (self w) := JsonDoc (JObject (session_record (self w')))]>
                        (files (fs w)).
Proof.
  destruct (lifecycle_ready op (self w)) eqn:Hready.
  2:{ destruct op; [discriminate Hready|]. simpl in *.
      rewrite refresh_run, Hready. discriminate. }
  rewrite (lifecycle_run_ready op w Hready), post_and_check_run. cbv zeta.
  rewrite lifecycle_post_request.
  destruct (transport (net w) (lifecycle_request op (self w))) as [resp|msg]; [|discriminate].
  destruct (http_error (status_code resp)) eqn:Hstatus; [discriminate|].
  rewrite adopt_run.
  destruct (body resp) as [[o|l|v]|] eqn:Hb; try discriminate.
  destruct (o !! "accessJwt") as [a|] eqn:Ha; [|discriminate].
  destruct (o !! "did") as [d|] eqn:Hd; [|discriminate].
  cbv zeta. rewrite save_session_run.
  destruct (decide _); [discriminate|].
  intros [= <-]. exists resp, o, a, d. by repeat split.
Qed.

(** X2.  Write-through: when a create or refresh returns, the session
    holds the [accessJwt], [refreshJwt] (or [None]) and [did] of the
    server's response, and the session file holds exactly the record of
    these three fields. *)
Theorem lifecycle_success_is_saved (op : lifecycle_op) (w w' : world) :
  run (lifecycle_run transport op) w = (Return tt, w') →
  files (fs w') !! session_file (self w')
    = Some (JsonDoc (JObject (session_record (self w'))))
  ∧ ∃ resp o a d,
      transport (net w) (lifecycle_request op (self w)) = Responds resp
      ∧ grants resp o a d
      ∧ access_token (self w') = a
      ∧ refresh_token (self w') = default PNone (o !! "refreshJwt")
      ∧ did (self w') = d.
Proof.
  intros H.
  apply lifecycle_success in H as (resp & o & a & d & Hresp & Hgrant & Hself & Hfiles).
  split.
  - rewrite Hfiles. replace (session_file (self w')) with (session_file (self w))
      by (by rewrite Hself). apply lookup_insert_eq.
  - exists resp, o, a, d. rewrite Hself.
    split; [exact Hresp|]. split; [exact Hgrant|]. by repeat split.
Qed.

(** X3.  A granted response without [did] makes create and refresh raise
    [KeyError] after the access and refresh tokens have been assigned:
    the session is left with the new tokens and the old [did], and
    nothing is saved. *)
Theorem missing_did_leaves_partial_update (op : lifecycle_op) (w : world)
    (resp : response) (o : gmap string pyval) (a : pyval) :
  lifecycle_ready op (self w) = true →
  transport (net w) (lifecycle_request op (self w)) = Responds resp →
  http_error (status_code resp) = false →
  body resp = Some (JObject o) →
  o !! "accessJwt" = Some a →
  o !! "did" = None →
  ∃ w', run (lifecycle_run transport op) w = (Raise (KeyError "did"), w')
    ∧ access_token (self w') = a
    ∧ refresh_token (self w') = default PNone (o !! "refreshJwt")
    ∧ did (self w') = did (self w)
    ∧ fs w' = fs w.
Proof.
  intros Hready Hresp Hstatus Hbody Ha Hd.
  rewrite (lifecycle_run_ready op w Hready), post_and_check_run. cbv zeta.
  rewrite lifecycle_post_request, Hresp, Hstatus, adopt_run, Hbody, Ha, Hd.
  cbv zeta. eauto 10.
Qed.

(** X4.  A granted response without [accessJwt] makes create and refresh
    raise [KeyError] before anything is assigned: the session and the
    disk are as before. *)
Theorem missing_accessJwt_changes_nothing (op : lifecycle_op) (w : world)
    (resp : response) (o : gmap string pyval) :
  lifecycle_ready op (self w) = true →
  transport (net w) (lifecycle_request op (self w)) = Responds resp →
  http_error (status_code resp) = false →
  body resp = Some (JObject o) →
  o !! "accessJwt" = None →
  ∃ w', run (lifecycle_run transport op) w = (Raise (KeyError "accessJwt"), w')
    ∧ self w' = self w ∧ fs w' = fs w ∧ log w' = log w.
Proof.
  intros Hready Hresp Hstatus Hbody Ha.
  rewrite (lifecycle_run_ready op w Hready), post_and_check_run. cbv zeta.
  rewrite lifecycle_post_request, Hresp, Hstatus, adopt_run, Hbody, Ha.
  eauto 10.
Qed.

(** X5.  When the server grants a create or refresh without [refreshJwt]
    (or with a null one), the stored refresh token is dropped, and the
    next refresh fails with [ValueError] without a call. *)
Theorem omitted_refreshJwt_disables_refresh (op : lifecycle_op) (w : world)
    (resp : response) (o : gmap string pyval) (a d : pyval) :
  lifecycle_ready op (self w) = true →
  transport (net w) (lifecycle_request op (self w)) = Responds resp →
  grants resp o a d →
  default PNone (o !! "refreshJwt") = PNone →
  session_file (self w) ∉ deny_write (fs w) →
  ∃ w', run (lifecycle_run transport op) w = (Return tt, w')
    ∧ refresh_token (self w') = PNone
    ∧ run (_refresh_access_token transport) w' =
        (Raise (ValueError "Refresh token is missing."),
         with_log (LogRecord ERROR "No refresh token available." []) w').
Proof.
  intros Hready Hresp (Hstatus & Hbody & Ha & Hd) Hnone Hwrite.
  rewrite (lifecycle_run_ready op w Hready), post_and_check_run. cbv zeta.
  rewrite lifecycle_post_request, Hresp, Hstatus, adopt_run, Hbody, Ha, Hd.
  cbv zeta. rewrite save_session_run. simpl.
  rewrite decide_False by exact Hwrite. rewrite Hnone.
  eexists. split; [reflexivity|]. split; [reflexivity|].
  by rewrite refresh_run.
Qed.

(** X6.  When the refresh is answered with a 4xx or 5xx status and the
    create that follows is granted, the recovery returns: the session
    holds the tokens of the create, they are in the session file, and
    the two calls are the refresh and the create, in that order. *)
Theorem rejected_refresh_falls_back_to_create (w : world)
    (rejected granted : response) (o : gmap string pyval) (a d : pyval) :
  truthy (refresh_token (self w)) = true →
  transport (net w) (refresh_request (self w)) = Responds rejected →
  http_error (status_code rejected) = true →
  transport (net w ++ [NetCall Post (refresh_request (self w)) (Responds rejected)])
    (create_request (self w)) = Responds granted →
  grants granted o a d →
  session_file (self w) ∉ deny_write (fs w) →
  ∃ w', run (refresh_or_create transport) w = (Return tt, w')
    ∧ access_token (self w') = a
    ∧ refresh_token (self w') = default PNone (o !! "refreshJwt")
    ∧ did (self w') = d
    ∧ files (fs w') !! session_file (self w')
      = Some (JsonDoc (JObject (session_record (self w'))))
    ∧ new_net w w' = [NetCall Post (refresh_request (self w)) (Responds rejected);
                      NetCall Post (create_request (self w)) (Responds granted)].
Proof.
  intros Ht Hrej Hstatus Hgr (Hok & Hbody & Ha & Hd) Hwrite.
  rewrite refresh_or_create_run, refresh_run, Ht, post_and_check_run. cbv zeta.
  change (post_request _ _) with (refresh_request (self w)).
  rewrite Hrej, Hstatus.
  rewrite create_session_run, post_and_check_run. cbv zeta.
  change (post_request _ _) with (create_request (self w)).
  simpl net. rewrite Hgr, Hok, adopt_run, Hbody, Ha, Hd.
  cbv zeta. rewrite save_session_run. simpl.
  rewrite decide_False by exact Hwrite.
  eexists. split; [reflexivity|]. simpl.
  repeat split; try done.
  - by rewrite lookup_insert_eq.
  - apply new_net_app. simpl. by rewrite <- app_assoc.
Qed.

(** X21.  A create or refresh that the server answers with a 4xx or 5xx
    status raises the builtin [ConnectionError] with that status as its
    cause, after logging the status and the text of the response once;
    the session and the disk are as before. *)
Theorem error_status_fails_without_change (op : lifecycle_op) (w : world)
    (resp : response) :
  lifecycle_ready op (self w) = true →
  transport (net w) (lifecycle_request op (self w)) = Responds resp →
  http_error (status_code resp) = true →
  ∃ w', run (lifecycle_run transport op) w =
          (Raise (ConnectionError (lifecycle_error op) (HTTPError (status_code resp))), w')
    ∧ self w' = self w ∧ fs w' = fs w
    ∧ new_log w w' = [LogRecord ERROR "Error %s: %s"
                        [LInt (status_code resp); LStr (text resp)]].
Proof.
  intros Hready Hresp Hstatus.
  rewrite (error_status_raises_ConnectionError op w resp Hready Hresp Hstatus).
  eexists. split; [reflexivity|]. split; [done|]. split; [done|].
  by apply new_log_app.
Qed.

(** ** Bootstrap *)

Lemma session_record_get (s : session) :
  default PNone (session_record s !! "accessJwt") = access_token s
  ∧ default PNone (session_record s !! "refreshJwt") = refresh_token s
  ∧ default PNone (session_record s !! "did") = did s.
Proof. unfold session_record. by repeat split. Qed.

(** X7.  Round trip: what [_save_session] writes, a later construction on
    the same path reads back: the three token fields are those of the
    session that was saved, and no call is made. *)
Theorem saved_session_is_reloaded (h p : string) (f : option string) (w : world) :
  session_file_or_default f = session_file (self w) →
  session_file (self w) ∉ deny_write (fs w) →
  session_file (self w) ∉ deny_read (fs w) →
  ∃ w1 w2,
    run _save_session w = (Return tt, w1)
    ∧ run (__init__ transport h p f) w1 = (Return tt, w2)
    ∧ access_token (self w2) = access_token (self w)
    ∧ refresh_token (self w2) = refresh_token (self w)
    ∧ did (self w2) = did (self w)
    ∧ net w2 = net w.
Proof.
  intros Hpath Hwrite Hread.
  rewrite save_session_run, decide_False by exact Hwrite.
  eexists _, _. split; [reflexivity|].
  rewrite init_run, load_session_run. simpl. rewrite Hpath, lookup_insert_eq.
  rewrite decide_False by exact Hread.
  split; [reflexivity|]. simpl.
  destruct (session_record_get (self w)) as (-> & -> & ->). done.
Qed.

(** When there is nothing to load, construction is a create from the
    fresh session. *)
Lemma bootstrap_creates (h p : string) (f : option string) (w : world) :
  nothing_to_load (session_file_or_default f) w →
  ∃ w1, run (__init__ transport h p f) w = run (_create_session transport) w1
    ∧ self w1 = fresh_session h p f ∧ net w1 = net w ∧ fs w1 = fs w.
Proof.
  unfold nothing_to_load. intros Hnothing. rewrite init_run, load_session_run. simpl.
  destruct (files (fs w) !! session_file_or_default f) as [fd|] eqn:Hfile.
  - destruct (decide (session_file_or_default f ∈ deny_read (fs w))) as [Hd|Hd].
    + eexists. split; [reflexivity|]. done.
    + destruct Hnothing as [[=] | [Hdeny | (raw & [= ->])]]; [done|].
      eexists. split; [reflexivity|]. done.
  - eexists. split; [reflexivity|]. done.
Qed.

(** X8.  When the session file is missing, cannot be opened, or holds
    text that [json.load] rejects with [JSONDecodeError], construction
    makes exactly one call, the create with the handle and password it
    was given; and when it returns, the session file holds the record of
    the new session (such a malformed file is overwritten). *)
Theorem bootstrap_without_blob_creates (h p : string) (f : option string) (w : world) :
  nothing_to_load (session_file_or_default f) w →
  new_net w (run (__init__ transport h p f) w).2
    = [NetCall Post (create_request (fresh_session h p f))
         (transport (net w) (create_request (fresh_session h p f)))]
  ∧ ∀ w', run (__init__ transport h p f) w = (Return tt, w') →
      files (fs w') !! session_file_or_default f
        = Some (JsonDoc (JObject (session_record (self w')))).
Proof.
  intros Hnothing.
  destruct (bootstrap_creates h p f w Hnothing) as (w1 & -> & Hself & Hnet & Hfs).
  split.
  - apply new_net_app. pose proof (lifecycle_net Create w1) as Hn. simpl in Hn.
    by rewrite Hn, Hself, Hnet.
  - intros w' Hrun.
    apply (lifecycle_success Create) in Hrun as (resp & o & a & d & _ & _ & Hs & Hfiles).
    rewrite Hfiles, Hself. apply lookup_insert_eq.
Qed.

(** X9.  Construction fails loudly: when there is nothing to load and the
    server answers the create with a 4xx or 5xx status, [__init__] raises
    the builtin [ConnectionError]; the session is left without tokens and
    the disk as it was. *)
Theorem bootstrap_rejected_raises_ConnectionError (h p : string) (f : option string)
    (w : world) (resp : response) :
  nothing_to_load (session_file_or_default f) w →
  transport (net w) (create_request (fresh_session h p f)) = Responds resp →
  http_error (status_code resp) = true →
  ∃ w', run (__init__ transport h p f) w =
          (Raise (ConnectionError "Error creating session: " (HTTPError (status_code resp))),
           w')
    ∧ self w' = fresh_session h p f
    ∧ fs w' = fs w.
Proof.
  intros Hnothing Hresp Hstatus.
  destruct (bootstrap_creates h p f w Hnothing) as (w1 & -> & Hself & Hnet & Hfs).
  change (_create_session transport) with (lifecycle_run transport Create).
  rewrite (error_status_raises_ConnectionError Create w1 resp);
    [| done | by rewrite Hself, Hnet | done].
  eexists. split; [reflexivity|]. by split.
Qed.

(** X10.  A session file that decodes to something else than an object
    (an array, a string, a number, null) is neither loaded nor replaced:
    construction raises [AttributeError] without a call. *)
Theorem bootstrap_non_record_raises_AttributeError (h p : string) (f : option string)
    (w : world) (j : json_value) :
  files (fs w) !! session_file_or_default f = Some (JsonDoc j) →
  session_file_or_default f ∉ deny_read (fs w) →
  (∀ o, j ≠ JObject o) →
  run (__init__ transport h p f) w
    = (Raise AttributeError, with_self (λ _, fresh_session h p f) w).
Proof.
  intros Hfile Hread Hj. rewrite init_run, load_session_run. simpl.
  rewrite Hfile, decide_False by exact Hread.
  destruct j as [o|l|v]; [by destruct (Hj o)|done|done].
Qed.

(** X11.  However construction ends, the session holds the handle and the
    password it was given, and its file is the given path, or
    [session.json] when none or an empty one was given. *)
Theorem init_stores_credentials (h p : string) (f : option string) (w : world) :
  let s := self (run (__init__ transport h p f) w).2 in
  handle s = h ∧ app_password s = p
  ∧ session_file s = match f with
                     | Some path => if String.eqb path "" then "session.json" else path
                     | None => "session.json"
                     end.
Proof.
  cbv zeta. rewrite init_run, load_session_run. simpl.
  assert (∀ w1, self w1 = fresh_session h p f →
            let s := self (run (_create_session transport) w1).2 in
            handle s = h ∧ app_password s = p
            ∧ session_file s = session_file_or_default f) as Hcreate.
  { intros w1 Hs. destruct (lifecycle_quiet Create w1) as [_ Hh Hp Hf _ _].
    simpl in *. by rewrite Hh, Hp, Hf, Hs. }
  destruct (files (fs w) !! session_file_or_default f) as [fd|].
  - destruct (decide _); [by apply Hcreate|].
    destruct fd as [[o|l|v]|raw|bytes]; try done. by apply Hcreate.
  - by apply Hcreate.
Qed.

(** ** Logout *)

Lemma logout_run (w : world) :
  let wc := with_self (put_did PNone)
              (with_self (put_refresh_token PNone)
                 (with_self (put_access_token PNone) w)) in
  let path := session_file (self w) in
  run logout w =
    (Return tt,
     match files (fs w) !! path with
     | None => wc
     | Some _ =>
         if decide (path ∈ deny_remove (fs w))
         then with_log (LogRecord ERROR "Error deleting session file: %s"
                          [LExn (OSError "Permission denied")]) wc
         else with_log (LogRecord INFO "Session file deleted." [])
                (with_files (delete path) wc)
     end).
Proof.
  cbv zeta. unfold logout, os_path_exists, os_remove. unfold_monad. simpl.
  destruct (files (fs w) !! session_file (self w)) as [fd|] eqn:Hf.
  - rewrite bool_decide_eq_true_2 by eauto. simpl.
    destruct (decide _); [done|]. simpl. by rewrite Hf.
  - by rewrite bool_decide_eq_false_2 by (intros [? ?]; congruence).
Qed.


(** X13.  When the session file can be removed, it is gone after logout,
    and the next construction on the same path makes exactly one call,
    the create. *)
Theorem logout_then_bootstrap_creates (h p : string) (f : option string) (w : world) :
  session_file_or_default f = session_file (self w) →
  session_file (self w) ∉ deny_remove (fs w) →
  let w1 := (run logout w).2 in
  files (fs w1) !! session_file (self w) = None
  ∧ new_net w1 (run (__init__ transport h p f) w1).2
    = [NetCall Post (create_request (fresh_session h p f))
         (transport (net w) (create_request (fresh_session h p f)))].
Proof.
  intros Hpath Hremove. cbv zeta. rewrite logout_run. cbv zeta. simpl snd.
  set (w1 := match files (fs w) !! session_file (self w) with
             | Some _ => _ | None => _ end).
  assert (files (fs w1) !! session_file (self w) = None ∧ net w1 = net w) as [Hgone Hnet].
  { subst w1. destruct (files (fs w) !! session_file (self w)) eqn:Hfile.
    - rewrite decide_False by exact Hremove. simpl. by rewrite lookup_delete_eq.
    - done. }
  split; [exact Hgone|].
  assert (nothing_to_load (session_file_or_default f) w1) as Hnothing
    by (left; by rewrite Hpath).
  destruct (bootstrap_creates h p f w1 Hnothing) as (w2 & -> & Hself & Hnet2 & _).
  apply new_net_app. pose proof (lifecycle_net Create w2) as Hn. simpl in Hn.
  by rewrite Hn, Hself, Hnet2, Hnet.
Qed.

(** ** The guarded call *)

(** X14.  The retry budget bounds the call: a guarded call makes at least
    one attempt and at most [retry + 1] (one for a budget of zero or
    less), at most [retry] recoveries, and every attempt sends the same
    method, URL and payload. *)
Theorem api_call_attempts_bounded (endpoint method : string)
    (json : option json_value) (data : option string) (headers : option loc)
    (params : option (list (string * string))) (retry : Z) (w : world) :
  let w' := (run (api_call urlencode transport
                    endpoint method json data headers params retry) w).2 in
  (1 ≤ length (attempts (new_net w w')) ≤ S (Z.to_nat retry))%nat
  ∧ (recovery_attempts (new_log w w') ≤ Z.to_nat retry)%nat
  ∧ Forall (λ a, same_call urlencode endpoint method json data params a.1)
      (attempts (new_net w w')).
Proof.
  cbv zeta.
  destruct (run (api_call urlencode transport
                   endpoint method json data headers params retry) w)
    as [res w'] eqn:Hrun.
  destruct (api_call_loop_trace _ _ _ _ _ _ _ _ _ _ _ Hrun)
    as (evs & rs & Hn & Hl & (q & o & more & ->) & Hsame & Hbound & Hend).
  simpl snd. rewrite (new_net_app _ _ _ Hn), (new_log_app _ _ _ Hl).
  split; [|by split].
  simpl in *. destruct Hend as [(Hlen & _) | (Hlen & _)]; lia.
Qed.

Lemma logged_fs x : fs (logged x).2 = fs x.2.
Proof. destruct x as [[a|e] w]; simpl; [done|]. by destruct (is_RequestException e). Qed.

Lemma chosen_headers_fs (headers : option loc) (w : world) :
  fs (chosen_headers headers w).2 = fs w.
Proof.
  unfold chosen_headers. destruct headers as [l|]; [destruct (bool_decide _)|]; done.
Qed.

(** X15.  Without budget, or when the first answer is not a 401 or 400
    response, a guarded call is one request and nothing else: the session
    and the disk are as before, a 4xx or 5xx status raises [HTTPError],
    a transport failure raises, and any other response yields its decoded
    body. *)
Theorem api_call_without_recovery (endpoint method : string)
    (json : option json_value) (data : option string) (headers : option loc)
    (params : option (list (string * string))) (retry : Z) (w : world) :
  let q := first_attempt urlencode endpoint method json data headers params w in
  let o := transport (net w) q in
  (retry ≤ 0 ∨ ∀ r, o = Responds r → auth_failure (status_code r) = false) →
  ∃ w', run (api_call urlencode transport
               endpoint method json data headers params retry) w
        = (final_result o, w')
    ∧ self w' = self w ∧ fs w' = fs w
    ∧ net w' = net w ++ [NetCall Request q o].
Proof.
  cbv zeta. unfold first_attempt. intros Hquiet.
  rewrite api_call_equation, api_call_body_run. cbv zeta.
  destruct (chosen_headers_frame headers w) as (Hn0 & _ & Hs0).
  pose proof (chosen_headers_fs headers w) as Hf0.
  set (l := (chosen_headers headers w).1) in *.
  set (wa := (chosen_headers headers w).2) in *.
  set (q := attempt_request urlencode endpoint method json data params l (authorize l wa))
    in *.
  clearbody q. clearbody wa. clearbody l.
  change (net (authorize l wa)) with (net wa). rewrite Hn0.
  set (o := transport (net w) q) in *.
  assert (∀ x, x = (final_result o, with_net (NetCall Request q o) (authorize l wa)) →
            ∃ w', logged x = (final_result o, w') ∧ self w' = self w ∧ fs w' = fs w
              ∧ net w' = net w ++ [NetCall Request q o]) as Hone.
  { intros x ->. exists (logged (final_result o,
                                  with_net (NetCall Request q o) (authorize l wa))).2.
    rewrite logged_self, logged_fs, logged_net.
    split; [|simpl; by rewrite Hs0, Hf0, Hn0].
    apply injective_projections; [by rewrite logged_result | reflexivity]. }
  apply Hone. destruct o as [resp|msg] eqn:Ho; [|done]. simpl.
  replace (auth_failure (status_code resp) && (0 <? retry)) with false; [done|].
  symmetry. apply andb_false_iff.
  destruct Hquiet as [Hretry | Hstatus]; [right; apply Z.ltb_ge; lia | left; eauto].
Qed.

Lemma chosen_headers_authorized (headers : option loc) (w : world) :
  heap (authorize (chosen_headers headers w).1 (chosen_headers headers w).2)
    !! (chosen_headers headers w).1
  = Some (<["Authorization" := "Bearer " +:+ py_str (access_token (self w))]>
            (caller_headers headers w)).
Proof.
  assert (∀ l : loc,
            heap (authorize l (with_heap (<[l := ∅]>) w)) !! l
            = Some (<["Authorization" := "Bearer " +:+ py_str (access_token (self w))]> ∅))
    as Hfresh.
  { intros l. apply (authorize_lookup l ∅ (with_heap (<[l := ∅]>) w)).
    simpl. apply lookup_insert_eq. }
  unfold chosen_headers, caller_headers.
  destruct headers as [l|]; [|apply Hfresh].
  destruct (bool_decide (default ∅ (heap w !! l) = ∅)) eqn:Hd.
  - apply bool_decide_eq_true in Hd. rewrite Hd. apply Hfresh.
  - simpl. apply authorize_lookup.
    destruct (heap w !! l) as [d|]; [done|].
    apply bool_decide_eq_false in Hd. by destruct Hd.
Qed.

(** Every guarded call begins with its first attempt. *)
Lemma api_call_loop_first_event (fuel : nat) (endpoint method : string)
    (json : option json_value) (data : option string) (headers : option loc)
    (params : option (list (string * string))) (retry : Z) (w : world) :
  let q := first_attempt urlencode endpoint method json data headers params w in
  ∃ rest,
    net (run (api_call_loop urlencode transport fuel
                endpoint method json data headers params retry) w).2
    = net w ++ NetCall Request q (transport (net w) q) :: rest.
Proof.
  cbv zeta. unfold first_attempt.
  assert (api_call_loop urlencode transport fuel
            endpoint method json data headers params retry
          = api_call_body urlencode transport
              (match fuel with
               | S fuel' => api_call_loop urlencode transport fuel'
               | O => λ _ _ _ _ _ _ _, raise RecursionError
               end) endpoint method json data headers params retry) as ->
    by (by destruct fuel).
  rewrite api_call_body_run. cbv zeta. rewrite logged_net.
  destruct (chosen_headers_frame headers w) as (Hn0 & _ & _).
  set (l := (chosen_headers headers w).1) in *.
  set (wa := (chosen_headers headers w).2) in *.
  set (q := attempt_request urlencode endpoint method json data params l (authorize l wa))
    in *.
  clearbody q. clearbody wa. clearbody l.
  change (net (authorize l wa)) with (net wa). rewrite Hn0.
  destruct (transport (net w) q) as [resp|msg]; [|exists []; simpl; by rewrite Hn0].
  destruct (auth_failure (status_code resp) && (0 <? retry));
    [|exists []; simpl; by rewrite Hn0].
  set (wc := with_log recovery_started
               (with_net (NetCall Request q (Responds resp)) (authorize l wa))).
  destruct (refresh_or_create_quiet wc) as [_ _ _ _ (evs1 & Hn1 & _) _].
  destruct (run (refresh_or_create transport) wc) as [[[]|e] wd]; simpl in Hn1;
    rewrite Hn0 in Hn1.
  2:{ exists evs1. simpl. by rewrite Hn1, <- app_assoc. }
  destruct fuel as [|fuel].
  - exists evs1. simpl. by rewrite Hn1, <- app_assoc.
  - destruct (run (api_call_loop urlencode transport fuel endpoint method json data
                     (Some l) params (retry - 1)) (authorize l wd)) as [res2 w2] eqn:Hcall.
    destruct (api_call_loop_trace _ _ _ _ _ _ _ _ _ _ _ Hcall) as (evs2 & _ & Hn2 & _).
    exists (evs1 ++ evs2). simpl in *. by rewrite Hn2, Hn1, <- !app_assoc.
Qed.

(** X16.  The first request of a guarded call carries the caller's
    headers with [Authorization] set to the bearer header of the current
    access token, whatever [Authorization] the caller supplied; it has
    the method, payload and URL of the call and a timeout of 10. *)
Theorem first_attempt_carries_bearer (endpoint method : string)
    (json : option json_value) (data : option string) (headers : option loc)
    (params : option (list (string * string))) (retry : Z) (w : world) :
  ∃ q rest,
    new_net w (run (api_call urlencode transport
                      endpoint method json data headers params retry) w).2
      = NetCall Request q (transport (net w) q) :: rest
    ∧ req_headers q
      = Some (<["Authorization" := "Bearer " +:+ py_str (access_token (self w))]>
                (caller_headers headers w))
    ∧ req_method q = method
    ∧ req_url q = endpoint_url urlencode endpoint params
    ∧ req_json q = json ∧ req_data q = data ∧ req_timeout q = 10.
Proof.
  destruct (api_call_loop_first_event (Z.to_nat retry)
              endpoint method json data headers params retry w) as (rest & Hn).
  exists (first_attempt urlencode endpoint method json data headers params w), rest.
  split; [by apply new_net_app|].
  split; [unfold first_attempt; simpl; by rewrite chosen_headers_authorized|].
  by repeat split.
Qed.

(** *** What a guarded call keeps *)

(** A relation between worlds that every step of the method keeps is
    kept by the method, whatever the fuel. *)
Lemma api_call_loop_keeps (R : world → world → Prop) :
  (∀ w, R w w) →
  (∀ w1 w2 w3, R w1 w2 → R w2 w3 → R w1 w3) →
  (∀ f w, R w (with_heap f w)) →
  (∀ e w, R w (with_net e w)) →
  (∀ r w, R w (with_log r w)) →
  (∀ w, R w (run (refresh_or_create transport) w).2) →
  ∀ (fuel : nat) (endpoint method : string) (json : option json_value)
    (data : option string) (headers : option loc)
    (params : option (list (string * string))) (retry : Z) (w : world),
    R w (run (api_call_loop urlencode transport fuel
                endpoint method json data headers params retry) w).2.
Proof.
  intros Hrefl Htrans Hheap Hnet Hlog Hrecover fuel endpoint method json data.
  assert (∀ x, R x.2 (logged x).2) as Hlogged.
  { intros [[a|e] w]; simpl; [done|]. destruct (is_RequestException e); simpl; auto. }
  assert (∀ headers w, R w (chosen_headers headers w).2) as Hchosen.
  { intros headers w. unfold chosen_headers.
    destruct headers as [l|]; [destruct (bool_decide _)|]; simpl; auto. }
  assert (∀ l w, R w (authorize l w)) as Hauth by (intros; apply Hheap).
  induction fuel as [|fuel IH]; intros headers params retry w; simpl api_call_loop;
    rewrite api_call_body_run; cbv zeta;
    (eapply Htrans; [|apply Hlogged]);
    (eapply Htrans; [apply Hchosen|]);
    set (l := (chosen_headers headers w).1);
    set (wa := (chosen_headers headers w).2);
    (eapply Htrans; [apply (Hauth l wa)|]);
    set (wb := authorize l wa);
    set (q := attempt_request urlencode endpoint method json data params l wb);
    clearbody q; clearbody wb; clear wa; clearbody l;
    (destruct (transport (net wb) q) as [resp|msg]; [|simpl; auto]);
    (destruct (auth_failure (status_code resp) && (0 <? retry)); [|simpl; auto]);
    (eapply Htrans; [apply (Hnet (NetCall Request q (Responds resp)))|]);
    (eapply Htrans; [apply (Hlog recovery_started)|]);
    set (wc := with_log recovery_started
                 (with_net (NetCall Request q (Responds resp)) wb));
    pose proof (Hrecover wc) as Hwd;
    (destruct (run (refresh_or_create transport) wc) as [[[]|e] wd]; simpl in Hwd;
       [|exact Hwd]);
    (eapply Htrans; [exact Hwd|]);
    (eapply Htrans; [apply (Hauth l wd)|]).
  - apply Hrefl.
  - apply IH.
Qed.

(** The handle, the password and the path of the session file. *)
Definition same_credentials (w w' : world) : Prop :=
  handle (self w') = handle (self w)
  ∧ app_password (self w') = app_password (self w)
  ∧ session_file (self w') = session_file (self w).

(** X17.  A guarded call never changes the handle, the password or the
    path of the session file, whatever recoveries it makes. *)
Theorem api_call_keeps_credentials (endpoint method : string)
    (json : option json_value) (data : option string) (headers : option loc)
    (params : option (list (string * string))) (retry : Z) (w : world) :
  let s := self (run (api_call urlencode transport
                        endpoint method json data headers params retry) w).2 in
  handle s = handle (self w)
  ∧ app_password s = app_password (self w)
  ∧ session_file s = session_file (self w).
Proof.
  cbv zeta. unfold api_call.
  apply (api_call_loop_keeps same_credentials); try done.
  - intros w1 w2 w3 (H1 & H2 & H3) (H1' & H2' & H3'). unfold same_credentials.
    by rewrite H1', H2', H3'.
  - intros w0. destruct (refresh_or_create_quiet w0) as [_ Hh Hp Hf _ _]. done.
Qed.

(** *** What a guarded call writes *)









(** *** The dictionaries a guarded call leaves alone *)

Lemma chosen_headers_other (headers : option loc) (w : world) (l' : loc) :
  l' ∈ dom (heap w) →
  (headers = Some l' → heap w !! l' = Some ∅) →
  (chosen_headers headers w).1 ≠ l'
  ∧ heap (chosen_headers headers w).2 !! l' = heap w !! l'.
Proof.
  intros Hdom Hempty.
  assert (fresh (dom (heap w)) ≠ l') as Hfresh
    by (intros <-; by apply (is_fresh (dom (heap w)))).
  unfold chosen_headers.
  destruct headers as [l|]; [|simpl; split; [done|by apply lookup_insert_ne]].
  destruct (bool_decide (default ∅ (heap w !! l) = ∅)) eqn:Hd;
    [simpl; split; [done|by apply lookup_insert_ne]|].
  simpl. split; [|done]. intros ->.
  apply bool_decide_eq_false in Hd. apply Hd. by rewrite Hempty.
Qed.

Lemma authorize_other (l l' : loc) (w : world) :
  l ≠ l' → heap (authorize l w) !! l' = heap w !! l'.
Proof. intros Hne. unfold authorize. simpl. by apply lookup_insert_ne. Qed.

Lemma api_call_loop_other_dicts (fuel : nat) (endpoint method : string)
    (json : option json_value) (data : option string)
    (params : option (list (string * string))) (l' : loc) :
  ∀ (headers : option loc) (retry : Z) (w : world),
    l' ∈ dom (heap w) →
    (headers = Some l' → heap w !! l' = Some ∅) →
    heap (run (api_call_loop urlencode transport fuel
                 endpoint method json data headers params retry) w).2 !! l'
    = heap w !! l'.
Proof.
  induction fuel as [|fuel IH]; intros headers retry w Hdom Hempty; simpl api_call_loop;
    rewrite api_call_body_run; cbv zeta; rewrite logged_heap;
    destruct (chosen_headers_other headers w l' Hdom Hempty) as [Hne Hkeep];
    set (l := (chosen_headers headers w).1) in *;
    set (wa := (chosen_headers headers w).2) in *;
    pose proof (authorize_other l l' wa Hne) as Hb; rewrite Hkeep in Hb;
    set (wb := authorize l wa) in *;
    set (q := attempt_request urlencode endpoint method json data params l wb);
    clearbody q; clearbody wb; clear Hkeep; clearbody wa; clearbody l;
    (destruct (transport (net wb) q) as [resp|msg]; [|exact Hb]);
    (destruct (auth_failure (status_code resp) && (0 <? retry)); [|exact Hb]);
    pose proof (refresh_or_create_quiet
                  (with_log recovery_started
                     (with_net (NetCall Request q (Responds resp)) wb))) as Hquiet;
    (destruct (run (refresh_or_create transport) _) as [[[]|e] wd];
       apply quiet_heap in Hquiet; simpl in Hquiet;
       [|simpl; by rewrite Hquiet]);
    rewrite <- Hquiet in Hb;
    pose proof (authorize_other l l' wd Hne) as Hd; rewrite Hb in Hd.
  - exact Hd.
  - rewrite IH; [exact Hd | | by intros [= ->]].
    apply elem_of_dom. rewrite Hd. by apply elem_of_dom.
Qed.

(** X19.  A guarded call changes no dictionary but the one it sends: the
    other dictionaries on the heap, and an empty dictionary that the
    caller passed as [headers], hold afterwards what they held before. *)
Theorem api_call_leaves_other_dicts (endpoint method : string)
    (json : option json_value) (data : option string) (headers : option loc)
    (params : option (list (string * string))) (retry : Z) (w : world) (l' : loc) :
  l' ∈ dom (heap w) →
  (headers = Some l' → heap w !! l' = Some ∅) →
  heap (run (api_call urlencode transport
               endpoint method json data headers params retry) w).2 !! l'
  = heap w !! l'.
Proof. apply api_call_loop_other_dicts. Qed.

(** *** A recovery that succeeds *)

(** X20.  Transparent refresh: when the first attempt is answered with
    401 or 400, there is budget left and the server grants the refresh,
    the call goes on with a second attempt that sends the same method,
    URL and payload and carries the bearer header of the new access
    token. *)
Theorem refreshed_token_is_used_on_retry (endpoint method : string)
    (json : option json_value) (data : option string) (headers : option loc)
    (params : option (list (string * string))) (retry : Z) (w : world)
    (r1 granted : response) (o : gmap string pyval) (a d : pyval) :
  let q1 := first_attempt urlencode endpoint method json data headers params w in
  let refresh := NetCall Post (refresh_request (self w)) (Responds granted) in
  transport (net w) q1 = Responds r1 →
  auth_failure (status_code r1) = true →
  0 < retry →
  truthy (refresh_token (self w)) = true →
  transport (net w ++ [NetCall Request q1 (Responds r1)]) (refresh_request (self w))
    = Responds granted →
  grants granted o a d →
  session_file (self w) ∉ deny_write (fs w) →
  ∃ q2 rest,
    new_net w (run (api_call urlencode transport
                      endpoint method json data headers params retry) w).2
      = NetCall Request q1 (Responds r1) :: refresh
          :: NetCall Request q2
               (transport (net w ++ [NetCall Request q1 (Responds r1); refresh]) q2)
          :: rest
    ∧ req_headers q2
      = Some (<["Authorization" := "Bearer " +:+ py_str a]> (caller_headers headers w))
    ∧ req_method q2 = method ∧ req_url q2 = req_url q1
    ∧ req_json q2 = json ∧ req_data q2 = data.
Proof.
  cbv zeta. unfold first_attempt.
  intros H1 Hauth Hretry Ht Hgr (Hok & Hbody & Ha & Hd) Hwrite.
  set (q1 := attempt_request urlencode endpoint method json data params
               (chosen_headers headers w).1
               (authorize (chosen_headers headers w).1 (chosen_headers headers w).2)) in *.
  set (refresh := NetCall Post (refresh_request (self w)) (Responds granted)).
  enough (∃ q2 rest,
            net (run (api_call urlencode transport
                        endpoint method json data headers params retry) w).2
            = net w ++ NetCall Request q1 (Responds r1) :: refresh
                :: NetCall Request q2
                     (transport (net w ++ [NetCall Request q1 (Responds r1); refresh]) q2)
                :: rest
            ∧ req_headers q2
              = Some (<["Authorization" := "Bearer " +:+ py_str a]>
                        (caller_headers headers w))
            ∧ req_method q2 = method ∧ req_url q2 = req_url q1
            ∧ req_json q2 = json ∧ req_data q2 = data)
    as (q2 & rest & Hn & HP)
    by (exists q2, rest; split; [by apply new_net_app|exact HP]).
  subst q1 refresh.
  rewrite api_call_unfold by done. rewrite api_call_body_run. cbv zeta. rewrite logged_net.
  pose proof (chosen_headers_authorized headers w) as Hhdr.
  destruct (chosen_headers_frame headers w) as (Hn0 & _ & Hs0).
  pose proof (chosen_headers_fs headers w) as Hf0.
  set (l := (chosen_headers headers w).1) in *.
  set (wa := (chosen_headers headers w).2) in *.
  set (q := attempt_request urlencode endpoint method json data params l (authorize l wa))
    in *.
  assert (req_method q = method ∧ req_json q = json ∧ req_data q = data
          ∧ req_url q = endpoint_url urlencode endpoint params) as (Hqm & Hqj & Hqd & Hqu)
    by done.
  clearbody q. clearbody wa. clearbody l.
  change (net (authorize l wa)) with (net wa). rewrite Hn0, H1, Hauth.
  replace (0 <? retry) with true by (symmetry; apply Z.ltb_lt; lia). simpl andb. cbv iota.
  rewrite refresh_or_create_run, refresh_run.
  change (self (with_log _ _)) with (self wa). rewrite Hs0, Ht.
  rewrite post_and_check_run. cbv zeta.
  change (post_request _ _) with (refresh_request (self w)).
  change (net (with_log _ _)) with (net wa ++ [NetCall Request q (Responds r1)]).
  rewrite Hn0, Hgr, Hok, adopt_run, Hbody, Ha, Hd. cbv zeta.
  rewrite save_session_run.
  change (session_file (self _)) with (session_file (self wa)).
  change (deny_write (fs _)) with (deny_write (fs wa)).
  rewrite Hs0, Hf0, decide_False by exact Hwrite.
  cbv iota beta.
  match goal with |- context [run ?m (authorize l ?x)] => set (wd := x) end.
  destruct (api_call_loop_first_event (Z.to_nat (retry - 1))
              endpoint method json data (Some l) params (retry - 1) (authorize l wd))
    as (rest & Hn2).
  exists (first_attempt urlencode endpoint method json data (Some l) params
            (authorize l wd)), rest.
  assert (net (authorize l wd)
          = net w ++ [NetCall Request q (Responds r1);
                      NetCall Post (refresh_request (self w)) (Responds granted)])
    as Hnd by (subst wd; simpl; by rewrite Hn0, <- app_assoc).
  rewrite Hnd in Hn2.
  split; [rewrite Hn2; by rewrite <- app_assoc|].
  split; [|by repeat split].
  unfold first_attempt, attempt_request. cbn [req_headers].
  rewrite (chosen_headers_authorized (Some l) (authorize l wd)).
  assert (heap wd !! l
          = Some (<["Authorization" := "Bearer " +:+ py_str (access_token (self w))]>
                    (caller_headers headers w))) as Hwd by exact Hhdr.
  unfold caller_headers at 1. rewrite (authorize_lookup l _ wd Hwd). simpl.
  by rewrite !insert_insert_eq.
Qed.


(** ** Files that cannot be read or written *)

(** X22.  A session file that is not text is neither loaded nor replaced:
    reading it raises [UnicodeDecodeError], a [ValueError] that is not a
    [JSONDecodeError], so the [except] clause of line 106 does not catch
    it; construction fails without a call. *)
Theorem bootstrap_non_text_raises_UnicodeDecodeError (h p : string) (f : option string)
    (w : world) (bytes : string) :
  files (fs w) !! session_file_or_default f = Some (NotText bytes) →
  session_file_or_default f ∉ deny_read (fs w) →
  run (__init__ transport h p f) w
    = (Raise UnicodeDecodeError, with_self (λ _, fresh_session h p f) w).
Proof.
  intros Hfile Hread. rewrite init_run, load_session_run. simpl.
  by rewrite Hfile, decide_False by exact Hread.
Qed.

(** X23.  What a save that fails leaves on disk, after a create or a
    refresh that the server granted: the disk as it was, when [open]
    failed; when the write failed after [open], the session file holds
    what the file system kept of the write, the session saved before is
    lost, and the next construction finds nothing to load. *)
Theorem failed_save_disk (op : lifecycle_op) (w : world)
    (resp : response) (o : gmap string pyval) (a d : pyval) :
  lifecycle_ready op (self w) = true →
  transport (net w) (lifecycle_request op (self w)) = Responds resp →
  grants resp o a d →
  session_file (self w) ∈ deny_write (fs w) →
  let w' := (run (lifecycle_run transport op) w).2 in
  match torn_write (fs w) !! session_file (self w) with
  | None => fs w' = fs w
  | Some partial =>
      files (fs w') = <[session_file (self w) := Malformed partial]> (files (fs w))
      ∧ nothing_to_load (session_file (self w)) w'
  end.
Proof.
  intros Hready Hresp (Hstatus & Hbody & Ha & Hd) Hdeny. cbv zeta.
  rewrite (lifecycle_run_ready op w Hready), post_and_check_run. cbv zeta.
  rewrite lifecycle_post_request, Hresp, Hstatus, adopt_run, Hbody, Ha, Hd.
  cbv zeta. rewrite save_session_run. simpl.
  rewrite decide_True by exact Hdeny. unfold failed_write. simpl.
  destruct (torn_write (fs w) !! session_file (self w)) as [partial|]; [|done].
  simpl. split; [done|]. right. right. exists partial. simpl. apply lookup_insert_eq.
Qed.

End Properties.

(** * The properties on concrete runs *)

Import Scenario.

(** ** C1 *)

(** C1 as stated fails.  With budget 1 and two 401 answers the caller
    gets an [HTTPError], the class of error it gets when the server
    answers 404 to a call for which no recovery is tried: nothing tells
    the exhausted budget apart. *)
Lemma exhausted_budget_error_not_distinct :
  let exhausted := run (timeline_call 1) w_live in
  let generic := run (missing_call 1) w_live in
  map snd (attempts (net exhausted.2)) = [refused 401; refused 401]
  ∧ map snd (attempts (net generic.2)) = [refused 404]
  ∧ exhausted.1 = Raise (RequestException (HTTPError 401))
  ∧ generic.1 = Raise (RequestException (HTTPError 404))
  ∧ raises_HTTPError exhausted.1 = true
  ∧ raises_HTTPError generic.1 = true.
Proof. vm_compute. repeat split. Qed.

(** C1 on that run: one recovery, then the [HTTPError] of the retried
    attempt. *)
Lemma exhausted_budget_witness :
  (run (timeline_call 1) w_live).1 = Raise (RequestException (HTTPError 401))
  ∧ recovery_attempts (new_log w_live (run (timeline_call 1) w_live).2) = 1%nat.
Proof.
  edestruct (exhausted_budget_raises_HTTPError no_encoding expiring_server
               "app.bsky.feed.getTimeline" "GET" None None None None w_live)
    as (Hres & _ & Hcount).
  - apply surjective_pairing.
  - vm_compute. reflexivity.
  - vm_compute. reflexivity.
  - vm_compute. reflexivity.
  - split; [exact Hres | exact Hcount].
Defined.

(** ** C2 *)


(** ** C3 *)

(** C3 on a session without refresh token: the [ValueError] escapes and
    only the first attempt has been made. *)
Lemma missing_refresh_token_witness :
  (run (timeline_call 1) w_no_refresh).1 = Raise (ValueError "Refresh token is missing.")
  ∧ tail (new_net w_no_refresh (run (timeline_call 1) w_no_refresh).2) = [].
Proof.
  edestruct (missing_refresh_token_escapes_api_call no_encoding expiring_server
               "app.bsky.feed.getTimeline" "GET" None None None None 1 w_no_refresh)
    as (Hres & Hrest).
  - apply surjective_pairing.
  - lia.
  - reflexivity.
  - vm_compute. reflexivity.
  - vm_compute. reflexivity.
  - split; [exact Hres|]. vm_compute. reflexivity.
Defined.

(** ** C4 *)

(** C4 on a server that cannot be reached. *)
Lemma no_response_witness :
  (run (_create_session unreachable_server) w_live).1 = Raise (UnboundLocalError "resp")
  ∧ (run (_refresh_access_token unreachable_server) w_live).1
    = Raise (UnboundLocalError "resp").
Proof.
  split.
  - exact (f_equal fst (no_response_raises_UnboundLocalError unreachable_server Create
                          w_live "Connection refused" eq_refl eq_refl)).
  - exact (f_equal fst (no_response_raises_UnboundLocalError unreachable_server Refresh
                          w_live "Connection refused" eq_refl eq_refl)).
Defined.

(** ** C5 *)

(** C5 as stated fails.  A create whose save fails raises, and leaves
    the session with the new access and refresh tokens. *)
Lemma failed_save_leaves_tokens_changed :
  let r := run (_create_session expiring_server) w_readonly in
  r.1 = Raise (OSError "Permission denied")
  ∧ access_token (self w_readonly) = PStr "A0"
  ∧ refresh_token (self w_readonly) = PStr "R0"
  ∧ access_token (self r.2) = PStr "A1"
  ∧ refresh_token (self r.2) = PStr "R1".
Proof. vm_compute. repeat split. Qed.

(** C5 on a refresh that the server grants. *)
Lemma unsaved_tokens_witness :
  ∃ msg w', run (lifecycle_run expiring_server Refresh) w_disk_full
              = (Raise (OSError msg), w')
    ∧ access_token (self w') = PStr "A2"
    ∧ refresh_token (self w') = default PNone (tokens "A2" "R2" !! "refreshJwt")
    ∧ did (self w') = PStr "did:abc".
Proof.
  apply (unsaved_tokens_stay_in_memory expiring_server Refresh w_disk_full
           {| status_code := 200; text := "{...}";
              body := Some (JObject (tokens "A2" "R2")) |}
           (tokens "A2" "R2") (PStr "A2") (PStr "did:abc")).
  - reflexivity.
  - reflexivity.
  - reflexivity.
  - reflexivity.
  - reflexivity.
  - reflexivity.
  - vm_compute. reflexivity.
Defined.

(** ** C6 *)

(** C6 as stated fails.  Construction from a session file whose fields
    are all null completes, without a call, and the session has no access
    token. *)
Lemma null_blob_bootstrap_has_no_token :
  let r := run (__init__ expiring_server "alice.bsky.social" "app-pw" None) w_null_blob in
  r.1 = Return tt ∧ access_token (self r.2) = PNone ∧ net r.2 = [].
Proof. vm_compute. repeat split. Qed.

(** C6 on a construction without session file: the token of the create. *)
Lemma bootstrap_token_source_witness :
  let r := run (__init__ expiring_server "alice.bsky.social" "app-pw" None) w_live in
  r.1 = Return tt ∧ access_token (self r.2) = PStr "A1".
Proof.
  cbv zeta.
  assert ((run (__init__ expiring_server "alice.bsky.social" "app-pw" None) w_live).1
          = Return tt) as Hret by (vm_compute; reflexivity).
  split; [exact Hret|].
  destruct (bootstrap_token_source expiring_server "alice.bsky.social" "app-pw" None
              w_live (run (__init__ expiring_server "alice.bsky.social" "app-pw" None)
                        w_live).2)
    as [(o & Hfile & _) | (resp & o & v & Hnet & Hbody & Hv & Hacc)].
  - rewrite <- Hret. apply surjective_pairing.
  - vm_compute in Hfile. discriminate Hfile.
  - rewrite Hacc. vm_compute in Hnet. injection Hnet as <-.
    injection Hbody as <-. vm_compute in Hv. by injection Hv as <-.
Defined.

(** ** C7 *)

(** C7 on a session file that holds an array, and on a saved session,
    with a server that cannot be reached. *)
Lemma bootstrap_from_decodable_blob_witness :
  (∃ res w',
     run (__init__ unreachable_server "alice.bsky.social" "app-pw" None) w_array_blob
       = (res, w')
     ∧ net w' = net w_array_blob ∧ fs w' = fs w_array_blob
     ∧ res = Raise AttributeError
     ∧ self w' = fresh_session "alice.bsky.social" "app-pw" None)
  ∧ (∃ res w',
       run (__init__ unreachable_server "alice.bsky.social" "app-pw" None) w_saved
         = (res, w')
       ∧ net w' = net w_saved ∧ fs w' = fs w_saved
       ∧ res = Return tt
       ∧ access_token (self w') = default PNone (tokens "A7" "R7" !! "accessJwt")
       ∧ refresh_token (self w') = default PNone (tokens "A7" "R7" !! "refreshJwt")
       ∧ did (self w') = default PNone (tokens "A7" "R7" !! "did")).
Proof.
  split.
  - apply (bootstrap_from_decodable_blob unreachable_server
             "alice.bsky.social" "app-pw" None w_array_blob (JArray [PStr "A7"])).
    + reflexivity.
    + vm_compute. intros H. discriminate H.
  - apply (bootstrap_from_decodable_blob unreachable_server
             "alice.bsky.social" "app-pw" None w_saved (JObject (tokens "A7" "R7"))).
    + reflexivity.
    + vm_compute. intros H. discriminate H.
Defined.

(** The same two runs, evaluated: the array is not loaded, the saved
    session is. *)
Lemma bootstrap_from_blob_runs :
  let failed := run (__init__ unreachable_server "alice.bsky.social" "app-pw" None)
                  w_array_blob in
  let loaded := run (__init__ unreachable_server "alice.bsky.social" "app-pw" None)
                  w_saved in
  failed.1 = Raise AttributeError
  ∧ access_token (self failed.2) = PNone
  ∧ net failed.2 = []
  ∧ loaded.1 = Return tt
  ∧ access_token (self loaded.2) = PStr "A7"
  ∧ refresh_token (self loaded.2) = PStr "R7"
  ∧ did (self loaded.2) = PStr "did:abc"
  ∧ net loaded.2 = [].
Proof. vm_compute. repeat split. Qed.

(** ** C8 *)

(** C8 on a session file that cannot be removed. *)
Lemma logout_locked_file_witness :
  ∃ w', run logout w_locked = (Return tt, w')
    ∧ access_token (self w') = PNone
    ∧ refresh_token (self w') = PNone
    ∧ did (self w') = PNone
    ∧ files (fs w') = files (fs w_locked)
    ∧ log w' = [LogRecord ERROR "Error deleting session file: %s"
                  [LExn (OSError "Permission denied")]].
Proof.
  destruct (logout_clears_unconditionally w_locked) as (w' & Hrun & Hself & Hfiles & Hlog).
  exists w'. split; [exact Hrun|]. rewrite Hself.
  split; [reflexivity|]. split; [reflexivity|]. split; [reflexivity|].
  split; [exact Hfiles | exact Hlog].
Defined.

(** ** C9 *)

(** C9 as stated fails.  An empty dictionary supplied by the caller is
    left as it was: the call works on a new one. *)
Lemma empty_headers_dict_is_not_mutated :
  let r := run (api_call no_encoding expiring_server
                  "app.bsky.feed.getTimeline" "GET" None None (Some 1%positive) None 1)
             w_caller in
  heap w_caller !! 1%positive = Some ∅
  ∧ heap r.2 !! 1%positive = Some ∅.
Proof. vm_compute. split; reflexivity. Qed.

(** C9 on the caller's dictionary that holds one header, in a call
    whose recovery stores a new access token and then raises. *)
Lemma caller_headers_witness :
  headers_outcome 2%positive {[ "Accept" := "application/json" ]}
    (access_token (self w_caller))
    (new_net w_caller (run partial_call w_caller).2)
    (run partial_call w_caller).1 (run partial_call w_caller).2.
Proof.
  apply (api_call_updates_caller_headers no_encoding partial_server
           "app.bsky.feed.getTimeline" "GET" None None None 1 2%positive
           {[ "Accept" := "application/json" ]} w_caller).
  - reflexivity.
  - intros H. apply (f_equal (lookup "Accept")) in H. vm_compute in H. discriminate H.
  - apply surjective_pairing.
Defined.

(** On that run the refresh is granted without [did]: the call raises
    [KeyError], the session holds the new access token, and the caller's
    dictionary the bearer header of the old one, with which the only
    attempt was sent. *)
Lemma failed_recovery_leaves_stale_bearer :
  let r := run partial_call w_caller in
  r.1 = Raise (KeyError "did")
  ∧ access_token (self r.2) = PStr "A9"
  ∧ heap r.2 !! 2%positive
    = Some {[ "Accept" := "application/json"; "Authorization" := "Bearer A0" ]}
  ∧ map (λ a, req_headers a.1) (attempts (net r.2))
    = [Some {[ "Accept" := "application/json"; "Authorization" := "Bearer A0" ]}].
Proof. vm_compute. repeat split. Qed.

(** ** C10 *)

(** C10 after a logout. *)
Lemma bearer_none_after_logout_witness :
  run get_auth_header (run logout w_locked).2
  = (Return {[ "Authorization" := "Bearer None" ]}, (run logout w_locked).2).
Proof.
  apply get_auth_header_absent_token. reflexivity.
Defined.

(** ** Further properties on concrete runs *)

(** X2 on a refresh that the server grants. *)
Lemma lifecycle_success_is_saved_witness :
  let w' := (run (_refresh_access_token expiring_server) w_live).2 in
  files (fs w') !! session_file (self w')
  = Some (JsonDoc (JObject (session_record (self w')))).
Proof.
  cbv zeta.
  apply (lifecycle_success_is_saved expiring_server Refresh w_live).
  vm_compute. reflexivity.
Defined.

(** X3 on a create answered without [did]. *)
Lemma missing_did_witness :
  ∃ w', run (lifecycle_run (answering {[ "accessJwt" := PStr "A9" ]}) Create) w_live
        = (Raise (KeyError "did"), w')
    ∧ access_token (self w') = PStr "A9"
    ∧ refresh_token (self w')
      = default PNone (({[ "accessJwt" := PStr "A9" ]} : gmap string pyval) !! "refreshJwt")
    ∧ did (self w') = did (self w_live)
    ∧ fs w' = fs w_live.
Proof.
  apply (missing_did_leaves_partial_update (answering {[ "accessJwt" := PStr "A9" ]})
           Create w_live
           {| status_code := 200; text := "{...}";
              body := Some (JObject {[ "accessJwt" := PStr "A9" ]}) |}
           {[ "accessJwt" := PStr "A9" ]} (PStr "A9")); reflexivity.
Defined.

(** X4 on a refresh answered without [accessJwt]. *)
Lemma missing_accessJwt_witness :
  ∃ w', run (lifecycle_run (answering {[ "did" := PStr "did:abc" ]}) Refresh) w_live
        = (Raise (KeyError "accessJwt"), w')
    ∧ self w' = self w_live ∧ fs w' = fs w_live ∧ log w' = log w_live.
Proof.
  apply (missing_accessJwt_changes_nothing (answering {[ "did" := PStr "did:abc" ]})
           Refresh w_live
           {| status_code := 200; text := "{...}";
              body := Some (JObject {[ "did" := PStr "did:abc" ]}) |}
           {[ "did" := PStr "did:abc" ]}); reflexivity.
Defined.

(** X5 on a refresh granted without [refreshJwt]. *)
Lemma omitted_refreshJwt_witness :
  let server := answering {[ "accessJwt" := PStr "A9"; "did" := PStr "did:abc" ]} in
  ∃ w', run (lifecycle_run server Refresh) w_live = (Return tt, w')
    ∧ refresh_token (self w') = PNone
    ∧ run (_refresh_access_token server) w' =
        (Raise (ValueError "Refresh token is missing."),
         with_log (LogRecord ERROR "No refresh token available." []) w').
Proof.
  cbv zeta.
  apply (omitted_refreshJwt_disables_refresh
           (answering {[ "accessJwt" := PStr "A9"; "did" := PStr "did:abc" ]})
           Refresh w_live
           {| status_code := 200; text := "{...}";
              body := Some (JObject {[ "accessJwt" := PStr "A9";
                                       "did" := PStr "did:abc" ]}) |}
           {[ "accessJwt" := PStr "A9"; "did" := PStr "did:abc" ]}
           (PStr "A9") (PStr "did:abc")).
  - reflexivity.
  - reflexivity.
  - repeat split.
  - reflexivity.
  - vm_compute. intros H. discriminate H.
Defined.

(** X6 against the server that rejects refreshes. *)
Lemma rejected_refresh_witness :
  ∃ w', run (refresh_or_create stale_server) w_live = (Return tt, w')
    ∧ access_token (self w') = PStr "A1"
    ∧ refresh_token (self w') = default PNone (tokens "A1" "R1" !! "refreshJwt")
    ∧ did (self w') = PStr "did:abc"
    ∧ files (fs w') !! session_file (self w')
      = Some (JsonDoc (JObject (session_record (self w'))))
    ∧ new_net w_live w'
      = [NetCall Post (refresh_request (self w_live))
           (Responds {| status_code := 400; text := "refused"; body := None |});
         NetCall Post (create_request (self w_live)) (Responds (grant "A1" "R1"))].
Proof.
  apply (rejected_refresh_falls_back_to_create stale_server w_live
           {| status_code := 400; text := "refused"; body := None |}
           (grant "A1" "R1") (tokens "A1" "R1") (PStr "A1") (PStr "did:abc")).
  - reflexivity.
  - reflexivity.
  - reflexivity.
  - reflexivity.
  - repeat split.
  - vm_compute. intros H. discriminate H.
Defined.

(** X7 on the live session. *)
Lemma saved_session_is_reloaded_witness :
  ∃ w1 w2,
    run _save_session w_live = (Return tt, w1)
    ∧ run (__init__ unreachable_server "bob.bsky.social" "other-pw" None) w1
      = (Return tt, w2)
    ∧ access_token (self w2) = access_token (self w_live)
    ∧ refresh_token (self w2) = refresh_token (self w_live)
    ∧ did (self w2) = did (self w_live)
    ∧ net w2 = net w_live.
Proof.
  apply (saved_session_is_reloaded unreachable_server
           "bob.bsky.social" "other-pw" None w_live).
  - reflexivity.
  - vm_compute. intros H. discriminate H.
  - vm_compute. intros H. discriminate H.
Defined.

(** X8 on a construction without session file. *)
Lemma bootstrap_without_blob_witness :
  new_net w_live
    (run (__init__ expiring_server "alice.bsky.social" "app-pw" None) w_live).2
  = [NetCall Post (create_request (fresh_session "alice.bsky.social" "app-pw" None))
       (expiring_server (net w_live)
          (create_request (fresh_session "alice.bsky.social" "app-pw" None)))].
Proof.
  apply (bootstrap_without_blob_creates expiring_server
           "alice.bsky.social" "app-pw" None w_live).
  left. reflexivity.
Defined.

(** X9 against a server that rejects the create. *)
Lemma bootstrap_rejected_witness :
  ∃ w', run (__init__ rejecting_server "alice.bsky.social" "app-pw" None) w_live
        = (Raise (ConnectionError "Error creating session: "
                    (HTTPError (status_code unauthorized))), w')
    ∧ self w' = fresh_session "alice.bsky.social" "app-pw" None
    ∧ fs w' = fs w_live.
Proof.
  apply (bootstrap_rejected_raises_ConnectionError rejecting_server
           "alice.bsky.social" "app-pw" None w_live unauthorized).
  - left. reflexivity.
  - reflexivity.
  - reflexivity.
Defined.

(** X10 on a session file that holds an array. *)
Lemma bootstrap_non_record_witness :
  run (__init__ unreachable_server "alice.bsky.social" "app-pw" None) w_array_blob
  = (Raise AttributeError,
     with_self (λ _, fresh_session "alice.bsky.social" "app-pw" None) w_array_blob).
Proof.
  apply (bootstrap_non_record_raises_AttributeError unreachable_server
           "alice.bsky.social" "app-pw" None w_array_blob (JArray [PStr "A7"])).
  - reflexivity.
  - vm_compute. intros H. discriminate H.
  - intros o H. discriminate H.
Defined.


(** X13 on a saved session whose file can be removed. *)
Lemma logout_then_bootstrap_witness :
  let w1 := (run logout w_saved).2 in
  files (fs w1) !! session_file (self w_saved) = None
  ∧ new_net w1 (run (__init__ expiring_server "alice.bsky.social" "app-pw" None) w1).2
    = [NetCall Post (create_request (fresh_session "alice.bsky.social" "app-pw" None))
         (expiring_server (net w_saved)
            (create_request (fresh_session "alice.bsky.social" "app-pw" None)))].
Proof.
  apply (logout_then_bootstrap_creates expiring_server
           "alice.bsky.social" "app-pw" None w_saved).
  - reflexivity.
  - vm_compute. intros H. discriminate H.
Defined.

(** X15 on a call that the server answers with 404. *)
Lemma api_call_without_recovery_witness :
  let q := first_attempt no_encoding "missing" "GET" None None None None w_live in
  ∃ w', run (api_call no_encoding expiring_server "missing" "GET" None None None None 0)
          w_live
        = (final_result (expiring_server (net w_live) q), w')
    ∧ self w' = self w_live ∧ fs w' = fs w_live
    ∧ net w' = net w_live ++ [NetCall Request q (expiring_server (net w_live) q)].
Proof.
  apply (api_call_without_recovery no_encoding expiring_server
           "missing" "GET" None None None None 0 w_live).
  left. lia.
Defined.

(** X19 on the caller's two dictionaries: the call that is given the one
    at 2 leaves the one at 1 alone. *)
Lemma other_dicts_witness :
  heap (run (api_call no_encoding expiring_server
               "app.bsky.feed.getTimeline" "GET" None None (Some 2%positive) None 1)
          w_caller).2 !! 1%positive
  = heap w_caller !! 1%positive.
Proof.
  apply (api_call_leaves_other_dicts no_encoding expiring_server
           "app.bsky.feed.getTimeline" "GET" None None (Some 2%positive) None 1
           w_caller 1%positive).
  - vm_compute. reflexivity.
  - intros H. discriminate H.
Defined.

(** X20 on the call whose refresh is granted. *)
Lemma refreshed_token_witness :
  ∃ q2 rest,
    new_net w_live (run (timeline_call 1) w_live).2
    = NetCall Request
        (first_attempt no_encoding "app.bsky.feed.getTimeline" "GET" None None None None
           w_live)
        (Responds unauthorized)
      :: NetCall Post (refresh_request (self w_live)) (Responds (grant "A2" "R2"))
      :: NetCall Request q2
           (expiring_server
              (net w_live ++
               [NetCall Request
                  (first_attempt no_encoding "app.bsky.feed.getTimeline" "GET"
                     None None None None w_live)
                  (Responds unauthorized);
                NetCall Post (refresh_request (self w_live)) (Responds (grant "A2" "R2"))])
              q2)
      :: rest
    ∧ req_headers q2
      = Some (<["Authorization" := "Bearer " +:+ py_str (PStr "A2")]>
                (caller_headers None w_live)).
Proof.
  destruct (refreshed_token_is_used_on_retry no_encoding expiring_server
              "app.bsky.feed.getTimeline" "GET" None None None None 1 w_live
              unauthorized (grant "A2" "R2") (tokens "A2" "R2") (PStr "A2") (PStr "did:abc"))
    as (q2 & rest & Hnet & Hheaders & _).
  - reflexivity.
  - reflexivity.
  - lia.
  - reflexivity.
  - reflexivity.
  - repeat split.
  - vm_compute. intros H. discriminate H.
  - exists q2, rest. split; [exact Hnet | exact Hheaders].
Defined.

(** X21 on a create that the server rejects. *)
Lemma error_status_witness :
  ∃ w', run (lifecycle_run rejecting_server Create) w_live =
          (Raise (ConnectionError (lifecycle_error Create)
                    (HTTPError (status_code unauthorized))), w')
    ∧ self w' = self w_live ∧ fs w' = fs w_live
    ∧ new_log w_live w' = [LogRecord ERROR "Error %s: %s"
                             [LInt (status_code unauthorized); LStr (text unauthorized)]].
Proof.
  apply (error_status_fails_without_change rejecting_server Create w_live unauthorized);
    reflexivity.
Defined.


(** X22 on a session file that is not text. *)
Lemma bootstrap_non_text_witness :
  run (__init__ unreachable_server "alice.bsky.social" "app-pw" None) w_binary_blob
  = (Raise UnicodeDecodeError,
     with_self (λ _, fresh_session "alice.bsky.social" "app-pw" None) w_binary_blob).
Proof.
  apply (bootstrap_non_text_raises_UnicodeDecodeError unreachable_server
           "alice.bsky.social" "app-pw" None w_binary_blob (String "255"%char "")).
  - reflexivity.
  - vm_compute. intros H. discriminate H.
Defined.

(** X23 on a refresh that the server grants, on a disk that is full. *)
Lemma failed_save_disk_witness :
  let w' := (run (lifecycle_run expiring_server Refresh) w_disk_full).2 in
  match torn_write (fs w_disk_full) !! session_file (self w_disk_full) with
  | None => fs w' = fs w_disk_full
  | Some partial =>
      files (fs w')
      = <[session_file (self w_disk_full) := Malformed partial]> (files (fs w_disk_full))
      ∧ nothing_to_load (session_file (self w_disk_full)) w'
  end.
Proof.
  apply (failed_save_disk expiring_server Refresh w_disk_full
           (grant "A2" "R2") (tokens "A2" "R2") (PStr "A2") (PStr "did:abc")).
  - reflexivity.
  - reflexivity.
  - repeat split.
  - vm_compute. reflexivity.
Defined.

(** On that run the session saved before is gone from the disk, and the
    new tokens are in memory only. *)
Lemma full_disk_loses_saved_session :
  let r := run (lifecycle_run expiring_server Refresh) w_disk_full in
  files (fs w_disk_full) !! "session.json" = Some (JsonDoc (JObject (tokens "A0" "R0")))
  ∧ r.1 = Raise (OSError "No space left on device")
  ∧ files (fs r.2) !! "session.json" = Some (Malformed "")
  ∧ access_token (self r.2) = PStr "A2".
Proof. vm_compute. repeat split. Qed.
